(** * cca-backend: the contest-entry submission service (src/index.js)

    A shallow embedding of the Express application in [src/index.js]
    (start-up validation of the environment, the multer file filter, the
    S3 uploader and the [/api/submit-entry] handler) together with the
    table layout of [src/query.sql].

    The outside world (environment variables, the clock, the random
    source, the object store and the database driver) is an explicit
    [World] record; the handler is a function of the world and the
    request and returns the trace of external calls it issued and the
    HTTP response it sent.  Console logging is not part of the trace. *)

From Stdlib Require Import ZArith String Ascii List Bool Lia.
From stdpp Require Import gmap strings list fin_maps sorting pretty.

Set Warnings "-register-all".

(** ** JavaScript values *)

Module Js.

(** The values that can occur in a parsed request body and in a JSON
    response.  Numbers are the integer-valued ones. *)
Inductive JsValue : Type :=
| JUndefined
| JNull
| JBool (b : bool)
| JNum (n : Z)
| JStr (s : string)
| JArr (xs : list JsValue)
| JObj (kvs : list (string * JsValue)).

Definition is_empty_string (s : string) : bool :=
  match s with EmptyString => true | String _ _ => false end.

(** ToBoolean: what [!v] and [v || d] test. *)
Definition truthy (v : JsValue) : bool :=
  match v with
  | JUndefined | JNull => false
  | JBool b => b
  | JNum n => negb (n =? 0)%Z
  | JStr s => negb (is_empty_string s)
  | JArr _ | JObj _ => true
  end.

Definition is_undefined (v : JsValue) : bool :=
  match v with JUndefined => true | _ => false end.

(** An [Error] object: the properties the application reads. *)
Record JsError : Type := mkError {
  message : string;
  code : option string;
  sqlMessage : option string;
  status : option Z
}.

(** [new Error(msg)] *)
Definition new_Error (msg : string) : JsError :=
  {| message := msg; code := None; sqlMessage := None; status := None |}.

(** [new TypeError(msg)] *)
Definition new_TypeError (msg : string) : JsError := new_Error msg.

(** [hay.includes(needle)] on strings. *)
Fixpoint includes (needle hay : string) : bool :=
  String.prefix needle hay ||
  match hay with
  | EmptyString => false
  | String _ rest => includes needle rest
  end.

(** A property that may be absent, interpolated into a template literal. *)
Definition template_of (o : option string) : string :=
  match o with Some s => s | None => "undefined" end.

End Js.
Import Js.

(** ** process.env *)

Section Environment.

Variable env : gmap string string.

(** [process.env[name]]: a string when set, [undefined] otherwise. *)
Definition process_env (name : string) : option string := env !! name.

(** [!process.env[name]] *)
Definition env_missing (name : string) : bool :=
  match process_env name with
  | None => true
  | Some s => is_empty_string s
  end.

(** [process.env[name] || dflt] with a string default. *)
Definition env_or (name dflt : string) : string :=
  match process_env name with
  | None => dflt
  | Some s => if is_empty_string s then dflt else s
  end.

End Environment.

(** ** Start-up (index.js, lines 12-63 and 154-168, 397-400) *)

Module Startup.

Definition requiredEnvVars : list string :=
  [ "AWS_ACCESS_KEY_ID";
    "AWS_SECRET_ACCESS_KEY";
    "S3_BUCKET_NAME";
    "DB_HOST";
    "DB_USER";
    "DB_PASS";
    "DB_NAME" ].

Definition missingVars (env : gmap string string) : list string :=
  List.filter (env_missing env) requiredEnvVars.

Definition example_env_file : string :=
"
AWS_ACCESS_KEY_ID=your_aws_access_key
AWS_SECRET_ACCESS_KEY=your_aws_secret_key
S3_BUCKET_NAME=your_s3_bucket_name
AWS_REGION=ap-south-1
DB_HOST=localhost
DB_PORT=3306
DB_USER=root
DB_PASS=your_db_password
DB_NAME=cca_responses
PORT=3001
  ".

(** The line printed for one missing variable. *)
Definition missing_line (varName : string) : string := "   - " +:+ varName.

(** What [console.error] receives, call by call, when variables are missing. *)
Definition diagnostics (missing : list string) : list string :=
  ["❌ Missing required environment variables:"]
  ++ List.map missing_line missing
  ++ [ String "010" "Please create a .env file with the required variables.";
       "Example .env file:";
       example_env_file ].

(** The settings the rest of the module reads from the environment once
    validation has passed; each is [process.env.X || default] unless noted. *)
Record Config : Type := mkConfig {
  cfg_port : string + Z;                 (* process.env.PORT || 3001 *)
  cfg_s3_region : string;                (* AWS_REGION || "ap-south-1" *)
  cfg_s3_accessKeyId : option string;    (* AWS_ACCESS_KEY_ID, as is *)
  cfg_s3_secretAccessKey : option string;(* AWS_SECRET_ACCESS_KEY, as is *)
  cfg_bucket : option string;            (* S3_BUCKET_NAME, as is *)
  cfg_db_host : string;                  (* DB_HOST || "localhost" *)
  cfg_db_port : string + Z;              (* DB_PORT || 3306 *)
  cfg_db_user : string;                  (* DB_USER || "root" *)
  cfg_db_password : string;              (* DB_PASS || "" *)
  cfg_db_database : string               (* DB_NAME || "cca_responses" *)
}.

(** [process.env[name] || n] with a numeric default. *)
Definition env_or_num (env : gmap string string) (name : string) (n : Z)
  : string + Z :=
  match process_env env name with
  | None => inr n
  | Some s => if is_empty_string s then inr n else inl s
  end.

Definition read_config (env : gmap string string) : Config :=
  {| cfg_port := env_or_num env "PORT" 3001;
     cfg_s3_region := env_or env "AWS_REGION" "ap-south-1";
     cfg_s3_accessKeyId := process_env env "AWS_ACCESS_KEY_ID";
     cfg_s3_secretAccessKey := process_env env "AWS_SECRET_ACCESS_KEY";
     cfg_bucket := process_env env "S3_BUCKET_NAME";
     cfg_db_host := env_or env "DB_HOST" "localhost";
     cfg_db_port := env_or_num env "DB_PORT" 3306;
     cfg_db_user := env_or env "DB_USER" "root";
     cfg_db_password := env_or env "DB_PASS" EmptyString;
     cfg_db_database := env_or env "DB_NAME" "cca_responses" |}.

(** The outcome of loading the module: either [process.exit(1)] after the
    diagnostics, or the server listening with the configuration read. *)
Inductive Outcome : Type :=
| Exit (exit_code : Z) (stderr : list string)
| Listening (cfg : Config).

Definition startup (env : gmap string string) : Outcome :=
  let missing := missingVars env in
  if (0 <? length missing)%nat
  then Exit 1 (diagnostics missing)
  else Listening (read_config env).

End Startup.

(** ** Requests, responses and the outside world *)

(** One entry of [req.files] (multer memory storage). *)
Record File : Type := mkFile {
  originalname : string;
  mimetype : string;
  buffer : list Byte.byte
}.

(** What the route sees of a request: [req.body] ([None] is [undefined])
    and the file parts sent under the field [visual_files] ([None] when
    the request is not multipart, so that [req.files] stays [undefined]). *)
Record Request : Type := mkRequest {
  body : option (gmap string JsValue);
  files : option (list File)
}.

Inductive ResponseBody : Type :=
| Json (fields : list (string * JsValue))   (* res.json({...}) *)
| ErrorPage.                                (* the framework's own error page *)

Record Response : Type := mkResponse {
  res_status : Z;
  res_body : ResponseBody
}.

(** [res.status(code).json(fields)] *)
Definition res_json (code : Z) (fields : list (string * JsValue)) : Response :=
  {| res_status := code; res_body := Json fields |}.

(** The input of a [PutObjectCommand]. *)
Record PutObjectParams : Type := mkParams {
  Bucket : option string;
  Key : string;
  Body : list Byte.byte;
  ContentType : string
}.

(** The result header of a statement that succeeded. *)
Record ExecResult : Type := mkExecResult { insertId : Z }.

Inductive DbResult : Type :=
| DbOk (result : ExecResult)
| DbErr (err : JsError).

(** Calls that leave the process, in the order they happen. *)
Inductive Event : Type :=
| EvS3Send (i : nat) (params : PutObjectParams)
    (* s3Client.send(new PutObjectCommand(params)) issued for file i *)
| EvS3Settled (i : nat) (failure : option JsError)
    (* the send for file i settled; None: fulfilled *)
| EvDbExecute (sql : string) (values : option (list JsValue)).
    (* promiseDb.execute(sql, values) issued *)

Definition Trace : Type := list Event.

(** Everything the handler does not control.  The [nat] arguments are the
    position of the file in [req.files]. *)
Record World : Type := mkWorld {
  env : gmap string string;                 (* process.env *)
  date_now : nat -> Z;                      (* Date.now() in the i-th callback *)
  random_id : nat -> string;                (* Math.random().toString(36).substring(2, 15) *)
  s3_send : nat -> PutObjectParams -> option JsError;
                                            (* how the i-th send ends; None: stored *)
  s3_settle_time : nat -> nat;              (* when the i-th send settles *)
  db_execute : string -> option (list JsValue) -> DbResult
                                            (* how pool.promise().execute ends *)
}.

(** ** Computations that call out and may throw *)

Module Run.

Definition t (A : Type) : Type := (Trace * (JsError + A))%type.

Definition ret {A} (a : A) : t A := ([], inr a).

Definition throw {A} (e : JsError) : t A := ([], inl e).

Definition bind {A B} (m : t A) (k : A -> t B) : t B :=
  match m with
  | (tr, inl e) => (tr, inl e)
  | (tr, inr a) => let '(tr', r) := k a in (tr ++ tr', r)
  end.

(** [try { m } catch (e) { h e }] *)
Definition try_catch {A} (m : t A) (h : JsError -> t A) : t A :=
  match m with
  | (tr, inl e) => let '(tr', r) := h e in (tr ++ tr', r)
  | (tr, inr a) => (tr, inr a)
  end.

Definition trace {A} (m : t A) : Trace := fst m.
Definition outcome {A} (m : t A) : JsError + A := snd m.

End Run.

Notation "'do' x <- m ; k" := (Run.bind m (fun x => k))
  (at level 10, x name, m at level 100, k at level 200).

(** ** The file filter given to multer (index.js, lines 69-106) *)

Definition allowedMimes : list string :=
  [ (* PDF *)
    "application/pdf";
    (* Word Documents *)
    "application/msword";
    "application/vnd.openxmlformats-officedocument.wordprocessingml.document";
    (* Images *)
    "image/jpeg";
    "image/jpg";
    "image/png";
    "image/tiff";
    "image/tif";
    (* Videos *)
    "video/mp4";
    "video/quicktime";
    "video/x-msvideo";
    (* Audio *)
    "audio/mpeg";
    "audio/wav";
    "audio/wave";
    "audio/x-wav" ].

(** [allowedMimes.includes(file.mimetype)] *)
Definition mime_allowed (file : File) : bool :=
  existsb (String.eqb (mimetype file)) allowedMimes.

Definition invalid_file_type : JsError :=
  new_Error "Invalid file type. Only PDF, Word documents, JPEG, PNG, TIFF, MP4, MOV, AVI, MP3, and WAV files are allowed.".

(** The callback's first argument: [None] for [cb(null, true)]. *)
Definition fileFilter (file : File) : option JsError :=
  if mime_allowed file then None else Some invalid_file_type.

(** [upload.array("visual_files")]: multer asks the filter about every file
    part in turn and gives up, passing the error on, at the first one the
    filter refuses; otherwise the parts become [req.files]. *)
Fixpoint accept_parts (parts : list File) : JsError + list File :=
  match parts with
  | [] => inr []
  | file :: rest =>
      match fileFilter file with
      | Some err => inl err
      | None =>
          match accept_parts rest with
          | inl err => inl err
          | inr kept => inr (file :: kept)
          end
      end
  end.

Definition upload_array (req : Request) : JsError + Request :=
  match files req with
  | None => inr req
  | Some parts =>
      match accept_parts parts with
      | inl err => inl err
      | inr kept => inr {| body := body req; files := Some kept |}
      end
  end.

(** ** The uploader (index.js, lines 108-152) *)

Section Uploader.

Variable w : World.

Definition S3_BUCKET_NAME : option string := process_env (env w) "S3_BUCKET_NAME".

(** The URL [uploadToS3] returns for a key. *)
Definition s3_url (fileName : string) : string :=
  "https://" +:+ template_of S3_BUCKET_NAME +:+ ".s3."
    +:+ env_or (env w) "AWS_REGION" "us-east-1"
    +:+ ".amazonaws.com/" +:+ fileName.

(** A promise for an upload that has been started. *)
Record Pending : Type := mkPending {
  pend_index : nat;
  pend_time : nat;
  pend_outcome : JsError + string
}.

Definition put_params (file : File) (fileName : string) : PutObjectParams :=
  {| Bucket := S3_BUCKET_NAME;
     Key := fileName;
     Body := buffer file;
     ContentType := mimetype file |}.

(** [uploadToS3(file, fileName)] up to its [await]: the send is issued and
    the promise settles later, with the URL or with the error rethrown. *)
Definition uploadToS3 (i : nat) (file : File) (fileName : string)
  : Event * Pending :=
  let params := put_params file fileName in
  (EvS3Send i params,
   {| pend_index := i;
      pend_time := s3_settle_time w i;
      pend_outcome :=
        match s3_send w i params with
        | None => inr (s3_url fileName)
        | Some error => inl error
        end |}).

(** The key chosen in the [map] callback for the i-th file. *)
Definition file_key (i : nat) (file : File) : string :=
  let timestamp := date_now w i in
  let randomId := random_id w i in
  "ccapatrika/" +:+ pretty timestamp +:+ "-" +:+ randomId +:+ "-"
    +:+ originalname file.

Definition settles_no_later (p q : Pending) : Prop :=
  pend_time p <= pend_time q.

#[local] Instance settles_no_later_dec p q : Decision (settles_no_later p q).
Proof. unfold settles_no_later. apply _. Defined.

(** The promises in the order in which they settle. *)
Definition settle_order (ps : list Pending) : list Pending :=
  merge_sort settles_no_later ps.

(** [Promise.all] watching the promises settle: it rejects with the first
    rejection it sees and otherwise waits for all of them. *)
Fixpoint watch (order : list Pending) : Trace * option JsError :=
  match order with
  | [] => ([], None)
  | p :: later =>
      match pend_outcome p with
      | inl error => ([EvS3Settled (pend_index p) (Some error)], Some error)
      | inr _ =>
          let '(tr, r) := watch later in
          (EvS3Settled (pend_index p) None :: tr, r)
      end
  end.

Definition fulfilled (p : Pending) : option string :=
  match pend_outcome p with inr url => Some url | inl _ => None end.

(** The settlement of a promise that was fulfilled, as an event. *)
Definition settled_ok (p : Pending) : Event := EvS3Settled (pend_index p) None.

(** What a settlement event reports about its promise. *)
Definition reported (p : Pending) : option JsError :=
  match pend_outcome p with inl err => Some err | inr _ => None end.

(** [await Promise.all(promises)]: the values come in the order of the
    argument, whatever the order of settlement. *)
Definition Promise_all (promises : list Pending) : Run.t (list string) :=
  match watch (settle_order promises) with
  | (tr, Some error) => (tr, inl error)
  | (tr, None) => (tr, inr (omap fulfilled promises))
  end.

(** [files.map(async (file) => ...)] up to the first [await] of each
    callback: every send is issued, in the order of [files]. *)
Definition start_uploads (files : list File) : list (Event * Pending) :=
  imap (fun i file => uploadToS3 i file (file_key i file)) files.

(** [uploadMultipleFilesToS3(files)]; the result is [null] or the joined
    string.  The [map] callbacks run one after the other up to their
    [await], so the sends are issued in the order of [files]. *)
Definition uploadMultipleFilesToS3 (files : option (list File)) : Run.t JsValue :=
  match files with
  | None => Run.ret JNull
  | Some files =>
      if (length files =? 0)%nat then Run.ret JNull
      else
        let started := start_uploads files in
        let uploadPromises := List.map snd started in
        do _ <- (List.map fst started, inr tt);
        do uploadedUrls <- Promise_all uploadPromises;
        Run.ret (JStr (String.concat "," uploadedUrls))
  end.

End Uploader.

(** ** The submission handler (index.js, lines 218-395) *)

Definition no_form_data : string :=
  "No form data received. Please ensure you're sending the form data correctly.".

Definition missing_required : string :=
  "Missing required fields: full_name and email_address are required.".

Definition query : string :=
"
        INSERT INTO submissions (
          full_name,
          email_address,
          contact_number,
          submission_capacity,
          team_members,
          prize_cheque_name,
          consent_declarations,
          challenge,
          insight,
          strategic_idea,
          strategy_execution,
          expected_results,
          entry_topic,
          concept_strategy,
          objective,
          rationale,
          measurement,
          insight_description,
          strategic_solution,
          creative_plan,
          communication_strategy,
          result_impact,
          result_scope,
          visual_links,
          why_outstanding
        )
        VALUES (?, ?, ?, ?, ?, ?, ?, ?, ?, ?, ?, ?, ?, ?, ?, ?, ?, ?, ?, ?, ?, ?, ?, ?, ?)
      ".

Definition show_columns : string :=
  "SHOW COLUMNS FROM submissions LIKE 'visual_links'".

(** [const { name } = req.body] *)
Definition field (b : gmap string JsValue) (name : string) : JsValue :=
  match b !! name with Some v => v | None => JUndefined end.

(** The array bound to the statement's placeholders. *)
Definition values_of (b : gmap string JsValue) (visual_links : JsValue)
  : list JsValue :=
    let full_name := field b "full_name" in
    let email_address := field b "email_address" in
    let contact_number := field b "contact_number" in
    let submission_capacity := field b "submission_capacity" in
    let team_members := field b "team_members" in
    let prize_cheque_name := field b "prize_cheque_name" in
    let consent_declarations := field b "consent_declarations" in
    let challenge := field b "challenge" in
    let insight := field b "insight" in
    let strategic_idea := field b "strategic_idea" in
    let strategy_execution := field b "strategy_execution" in
    let expected_results := field b "expected_results" in
    let entry_topic := field b "entry_topic" in
    let concept_strategy := field b "concept_strategy" in
    let objective := field b "objective" in
    let rationale := field b "rationale" in
    let measurement := field b "measurement" in
    let insight_description := field b "insight_description" in
    let strategic_solution := field b "strategic_solution" in
    let creative_plan := field b "creative_plan" in
    let communication_strategy := field b "communication_strategy" in
    let result_impact := field b "result_impact" in
    let result_scope := field b "result_scope" in
    let why_outstanding := field b "why_outstanding" in
      [
        full_name;
        email_address;
        contact_number;
        submission_capacity;
        team_members;
        prize_cheque_name;
        consent_declarations;
        challenge;
        insight;
        strategic_idea;
        strategy_execution;
        expected_results;
        entry_topic;
        concept_strategy;
        objective;
        rationale;
        measurement;
        insight_description;
        strategic_solution;
        creative_plan;
        communication_strategy;
        result_impact;
        result_scope;
        visual_links;
        why_outstanding ].

Section Handler.

Variable w : World.

(** [await promiseDb.execute(sql, values)] *)
Definition execute (sql : string) (values : option (list JsValue))
  : Run.t ExecResult :=
  ([EvDbExecute sql values],
   match db_execute w sql values with
   | DbOk result => inr result
   | DbErr err => inl err
   end).

(** [process.env.NODE_ENV === "development"] *)
Definition development : bool :=
  match process_env (env w) "NODE_ENV" with
  | Some mode => String.eqb mode "development"
  | None => false
  end.

(** The test guarding the column check in the insert's [catch]. *)
Definition visual_links_column_issue (err : JsError) : bool :=
  match code err with
  | Some c => String.eqb c "ER_BAD_FIELD_ERROR"
  | None => false
  end
  && match sqlMessage err with
     | Some m => negb (is_empty_string m) && includes "visual_links" m
     | None => false
     end.

(** From [const query] to the end of the inner [try]/[catch]. *)
Definition insert_entry (b : gmap string JsValue) (visual_links : JsValue)
  : Run.t Response :=
  let values := values_of b visual_links in
  Run.try_catch
    (do result <- execute query (Some values);
     Run.ret (res_json 200
       [ ("message", JStr "Entry successfully submitted!");
         ("visual_links", visual_links);
         ("entry_id", JNum (insertId result)) ]))
    (fun err =>
       do _ <- (if visual_links_column_issue err
                then Run.try_catch
                       (do _ <- execute show_columns None; Run.ret tt)
                       (fun checkErr => Run.ret tt)
                else Run.ret tt);
       Run.ret (res_json 500
         [ ("message", JStr "Error saving the entry.");
           ("error", JStr (if development then message err
                           else "Database error occurred")) ])).

(** [req.files && req.files.length > 0] *)
Definition has_files (req : Request) : bool :=
  match files req with
  | Some fs => (0 <? length fs)%nat
  | None => false
  end.

(** [!full_name || !email_address] *)
Definition missing_required_fields (b : gmap string JsValue) : bool :=
  let full_name := field b "full_name" in
  let email_address := field b "email_address" in
  negb (truthy full_name) || negb (truthy email_address).

(** [let visual_links = null; if (...) visual_links = await ...] *)
Definition resolve_attachments (req : Request) : Run.t JsValue :=
  if has_files req
  then uploadMultipleFilesToS3 w (files req)
  else Run.ret JNull.

(** The body of the outer [try]. *)
Definition submit_entry (req : Request) : Run.t Response :=
  match body req with
  | None => Run.ret (res_json 400 [ ("message", JStr no_form_data) ])
  | Some b =>
      if (size b =? 0)%nat
      then Run.ret (res_json 400 [ ("message", JStr no_form_data) ])
      else
        if missing_required_fields b
        then Run.ret (res_json 400 [ ("message", JStr missing_required) ])
        else
          do visual_links <- resolve_attachments req;
          insert_entry b visual_links
  end.

(** The handler: the outer [try] and its [catch]. *)
Definition submit_entry_handler (req : Request) : Trace * Response :=
  match submit_entry req with
  | (tr, inr response) => (tr, response)
  | (tr, inl error) =>
      (tr, res_json 500
             [ ("message", JStr "Error processing submission.");
               ("error", JStr (message error)) ])
  end.

(** What Express answers when a middleware passes an error on and the
    application has registered no error handler, as here: the status of
    the error when it carries one in the 4xx-5xx range, 500 otherwise. *)
Definition default_error_handler (err : JsError) : Response :=
  {| res_status :=
       match status err with
       | Some s => if ((400 <=? s) && (s <? 600))%Z then s else 500%Z
       | None => 500%Z
       end;
     res_body := ErrorPage |}.

(** The route [POST /api/submit-entry]: multer, then the handler. *)
Definition submit_entry_route (req : Request) : Trace * Response :=
  match upload_array req with
  | inl err => ([], default_error_handler err)
  | inr req' => submit_entry_handler req'
  end.

End Handler.

(** ** The table (query.sql) *)

Module Schema.

Inductive SqlType : Type :=
| INT_AUTO_INCREMENT_PRIMARY_KEY
| VARCHAR (n : nat)
| ENUM (alternatives : list string)
| TEXT.

(** [CREATE TABLE submissions (...)] *)
Definition create_table : list (string * SqlType) :=
  [ ("id", INT_AUTO_INCREMENT_PRIMARY_KEY);
    ("full_name", VARCHAR 255);
    ("email_address", VARCHAR 255);
    ("contact_number", VARCHAR 255);
    ("submission_capacity", ENUM ["Agency"; "Freelancer"; "Corporation"]);
    ("team_members", TEXT);
    ("prize_cheque_name", VARCHAR 255);
    ("consent_declarations", TEXT);
    ("challenge", TEXT);
    ("insight", TEXT);
    ("strategic_idea", TEXT);
    ("strategy_execution", TEXT);
    ("expected_results", TEXT);
    ("entry_topic", TEXT);
    ("concept_strategy", TEXT);
    ("objective", TEXT);
    ("rationale", TEXT);
    ("measurement", TEXT);
    ("insight_description", TEXT);
    ("strategic_solution", TEXT);
    ("creative_plan", TEXT);
    ("communication_strategy", TEXT);
    ("result_impact", TEXT);
    ("result_scope", VARCHAR 255);
    ("visual_link", TEXT);
    ("why_outstanding", TEXT) ].

(** [ALTER TABLE ... CHANGE COLUMN old new ty] *)
Definition change_column (old new : string) (ty : SqlType)
    (cols : list (string * SqlType)) : list (string * SqlType) :=
  List.map (fun col => if String.eqb (fst col) old then (new, ty) else col) cols.

Definition submissions : list (string * SqlType) :=
  change_column "visual_link" "visual_links" TEXT create_table.

(** The columns a client supplies: all but the generated key. *)
Definition supplied_columns : list string :=
  List.map fst
    (List.filter
       (fun col => match snd col with
                   | INT_AUTO_INCREMENT_PRIMARY_KEY => false
                   | _ => true
                   end)
       submissions).

End Schema.

(** The column list written in [query], in order. *)
Definition insert_columns : list string :=
  [ "full_name"; "email_address"; "contact_number"; "submission_capacity";
    "team_members"; "prize_cheque_name"; "consent_declarations"; "challenge";
    "insight"; "strategic_idea"; "strategy_execution"; "expected_results";
    "entry_topic"; "concept_strategy"; "objective"; "rationale";
    "measurement"; "insight_description"; "strategic_solution";
    "creative_plan"; "communication_strategy"; "result_impact";
    "result_scope"; "visual_links"; "why_outstanding" ].

(** ** The driver's check of bind parameters *)

Module Mysql2.

(** What mysql2's [execute] throws for an [undefined] bind parameter. *)
Definition undefined_parameter : JsError :=
  new_TypeError
    "Bind parameters must not contain undefined. To pass SQL NULL specify JS null".

(** mysql2's [execute] in front of a server: the bind parameters are checked
    before the statement is sent, and [undefined] among them is a
    [TypeError], which the promise wrapper turns into a rejection. *)
Definition execute (server : string -> list JsValue -> DbResult)
    (sql : string) (values : option (list JsValue)) : DbResult :=
  match values with
  | Some vs =>
      if existsb is_undefined vs then DbErr undefined_parameter
      else server sql vs
  | None => server sql []
  end.

End Mysql2.

(** A world whose driver refuses [undefined] bind parameters, as mysql2's
    [execute] does. *)
Definition rejects_undefined (w : World) : Prop :=
  forall sql vs, existsb is_undefined vs = true ->
    exists err, db_execute w sql (Some vs) = DbErr err.

(** ** Reading traces *)

(** The insert of the submission, as opposed to the column check. *)
Definition is_insert (ev : Event) : bool :=
  match ev with
  | EvDbExecute sql _ => String.eqb sql query
  | _ => false
  end.

(** A call to the object store: a send or its settlement. *)
Definition is_upload (ev : Event) : bool :=
  match ev with
  | EvS3Send _ _ | EvS3Settled _ _ => true
  | EvDbExecute _ _ => false
  end.

Definition inserts (tr : Trace) : Trace := List.filter is_insert tr.
Definition uploads (tr : Trace) : Trace := List.filter is_upload tr.

(** [Object.keys(req.body).length], or zero without a body. *)
Definition received_fields (req : Request) : nat :=
  match body req with Some b => size b | None => 0 end.

(** The number of attachments the handler sees. *)
Definition attachments (req : Request) : nat :=
  match files req with Some fs => length fs | None => 0 end.

(** The value bound to the placeholder of a column. *)
Definition parameter_of (column : string) (values : list JsValue) : option JsValue :=
  snd <$> List.find (fun cv => String.eqb (fst cv) column)
            (combine insert_columns values).

(** The URLs of the attachments, in the order of [req.files]. *)
Definition reference_urls (w : World) (fs : list File) : list string :=
  imap (fun i file => s3_url w (file_key w i file)) fs.

(** The column check issued after a failed insert, if any. *)
Definition column_check (err : JsError) : Trace :=
  if visual_links_column_issue err then [EvDbExecute show_columns None] else [].

Definition saved (visual_links : JsValue) (result : ExecResult) : Response :=
  res_json 200
    [ ("message", JStr "Entry successfully submitted!");
      ("visual_links", visual_links);
      ("entry_id", JNum (insertId result)) ].

Definition not_saved (w : World) (err : JsError) : Response :=
  res_json 500
    [ ("message", JStr "Error saving the entry.");
      ("error", JStr (if development w then message err
                      else "Database error occurred")) ].

Definition not_processed (error : JsError) : Response :=
  res_json 500
    [ ("message", JStr "Error processing submission.");
      ("error", JStr (message error)) ].

Definition rejected (msg : string) : Response :=
  res_json 400 [ ("message", JStr msg) ].

(** [req.body.name], with no body read as no field. *)
Definition request_field (req : Request) (name : string) : JsValue :=
  match body req with Some b => field b name | None => JUndefined end.

(** A required field is missing: absent, or present with a falsy value. *)
Definition required_field_missing (req : Request) : Prop :=
  truthy (request_field req "full_name") = false \/
  truthy (request_field req "email_address") = false.

(** The response is a message that names both required fields. *)
Definition names_required_fields (response : Response) : bool :=
  match res_body response with
  | Json [ (key, JStr msg) ] =>
      String.eqb key "message" && includes "full_name" msg
        && includes "email_address" msg
  | _ => false
  end.

(** Status classes. *)
Definition client_error (response : Response) : Prop :=
  (400 <= res_status response < 500)%Z.

Definition server_error (response : Response) : Prop :=
  (500 <= res_status response < 600)%Z.

(** ** The specification's wording, for comparison *)

Module Spec.

(** Space, tab, line feed, vertical tab, form feed, carriage return. *)
Definition whitespace (c : ascii) : bool :=
  let n := N_of_ascii c in
  (n =? 32)%N || ((9 <=? n)%N && (n <=? 13)%N).

Fixpoint trim_start (s : string) : string :=
  match s with
  | EmptyString => EmptyString
  | String c rest => if whitespace c then trim_start rest else s
  end.

Fixpoint trim_end (s : string) : string :=
  match s with
  | EmptyString => EmptyString
  | String c rest =>
      match trim_end rest with
      | EmptyString => if whitespace c then EmptyString else String c EmptyString
      | kept => String c kept
      end
  end.

Definition trim (s : string) : string := trim_end (trim_start s).

(** "non-empty after trimming" *)
Definition non_empty_after_trimming (v : JsValue) : bool :=
  match v with
  | JStr s => negb (is_empty_string (trim s))
  | _ => false
  end.

(** The validator of section 4.1: both identity fields present and
    non-empty after trimming. *)
Definition validator_accepts (b : gmap string JsValue) : bool :=
  non_empty_after_trimming (field b "full_name")
  && non_empty_after_trimming (field b "email_address").

(** The configuration surface of section 6, by environment variable:
    bucket identity, region, storage credentials, database host, port,
    credentials and schema name, listening port, operating mode. *)
Definition configuration_surface : list string :=
  [ "S3_BUCKET_NAME"; "AWS_REGION"; "AWS_ACCESS_KEY_ID"; "AWS_SECRET_ACCESS_KEY";
    "DB_HOST"; "DB_PORT"; "DB_USER"; "DB_PASS"; "DB_NAME"; "PORT"; "NODE_ENV" ].

(** The operating mode is production. *)
Definition production (w : World) : Prop :=
  process_env (env w) "NODE_ENV" = Some "production".

End Spec.

(** ** Sample worlds and requests *)

Module Sample.

Definition required_env : gmap string string :=
  list_to_map
    [ ("AWS_ACCESS_KEY_ID", "AKIAEXAMPLE");
      ("AWS_SECRET_ACCESS_KEY", "secret");
      ("S3_BUCKET_NAME", "cca-entries");
      ("DB_HOST", "db.internal");
      ("DB_USER", "cca");
      ("DB_PASS", "hunter2");
      ("DB_NAME", "cca_responses") ].

(** A server that stores whatever it is sent and hands out the key 7. *)
Definition accepting_server (sql : string) (vs : list JsValue) : DbResult :=
  DbOk {| insertId := 7 |}.

(** Everything works: the store keeps each object, the later files settle
    first, and the database sits behind mysql2. *)
Definition healthy (mode : option string) : World :=
  {| env := match mode with
            | Some m => <["NODE_ENV" := m]> required_env
            | None => required_env
            end;
     date_now := fun i => (1730000000000 + Z.of_nat i)%Z;
     random_id := fun i => "k3x9" +:+ pretty i;
     s3_send := fun _ _ => None;
     s3_settle_time := fun i => 10 - i;
     db_execute := Mysql2.execute accepting_server |}.

(** The store refuses the file at position [bad] with the given message. *)
Definition store_refuses (mode : option string) (bad : nat) (msg : string) : World :=
  {| env := env (healthy mode);
     date_now := date_now (healthy mode);
     random_id := random_id (healthy mode);
     s3_send := fun i _ => if (i =? bad)%nat then Some (new_Error msg) else None;
     s3_settle_time := fun i => i;
     db_execute := db_execute (healthy mode) |}.

(** The database answers every statement with the given error. *)
Definition database_fails (mode : option string) (err : JsError) : World :=
  {| env := env (healthy mode);
     date_now := date_now (healthy mode);
     random_id := random_id (healthy mode);
     s3_send := s3_send (healthy mode);
     s3_settle_time := s3_settle_time (healthy mode);
     db_execute := Mysql2.execute (fun _ _ => DbErr err) |}.

Definition png : File :=
  {| originalname := "poster.png"; mimetype := "image/png"; buffer := [] |}.

Definition pdf : File :=
  {| originalname := "deck.pdf"; mimetype := "application/pdf"; buffer := [] |}.

Definition gif : File :=
  {| originalname := "anim.gif"; mimetype := "image/gif"; buffer := [] |}.

(** Only the two required fields. *)
Definition jane : gmap string JsValue :=
  {[ "full_name" := JStr "Jane Doe"; "email_address" := JStr "jane@x.com" ]}.

(** Every field of the form present, the optional ones empty. *)
Definition jane_form : gmap string JsValue :=
  <["full_name" := JStr "Jane Doe"]>
    (<["email_address" := JStr "jane@x.com"]>
       (<["submission_capacity" := JStr "Freelancer"]>
          (list_to_map (List.map (fun c => (c, JStr EmptyString)) insert_columns)))).

Definition no_fields : Request := {| body := Some ∅; files := None |}.

(** No [full_name], one attachment. *)
Definition nameless : Request :=
  {| body := Some {[ "email_address" := JStr "jane@x.com" ]};
     files := Some [png] |}.

(** The whole form, the name made of three spaces. *)
Definition blank_name : gmap string JsValue :=
  <["full_name" := JStr "   "]> jane_form.

Definition blank_entry : Request :=
  {| body := Some blank_name; files := Some [] |}.

(** Only the two required fields, no attachment. *)
Definition short_entry : Request :=
  {| body := Some jane; files := Some [] |}.

(** The whole form with an attachment of a type that is not allowed. *)
Definition gif_entry : Request :=
  {| body := Some jane_form; files := Some [png; gif] |}.

(** The whole form, no attachment. *)
Definition plain_entry : Request :=
  {| body := Some jane_form; files := Some [] |}.

(** The whole form with two attachments. *)
Definition illustrated_entry : Request :=
  {| body := Some jane_form; files := Some [png; pdf] |}.

End Sample.

(** The ways a request is answered: what was called and what was sent. *)
Inductive Answered (w : World) (req : Request) : Trace -> Response -> Prop :=
| no_form :
    received_fields req = 0 ->
    Answered w req [] (rejected no_form_data)
| missing_fields b :
    body req = Some b -> size b <> 0 ->
    missing_required_fields b = true ->
    Answered w req [] (rejected missing_required)
| upload_failed b tr err :
    body req = Some b -> size b <> 0 ->
    missing_required_fields b = false ->
    resolve_attachments w req = (tr, inl err) ->
    Answered w req tr (not_processed err)
| entry_saved b tr visual_links result :
    body req = Some b -> size b <> 0 ->
    missing_required_fields b = false ->
    resolve_attachments w req = (tr, inr visual_links) ->
    db_execute w query (Some (values_of b visual_links)) = DbOk result ->
    Answered w req
      (tr ++ [EvDbExecute query (Some (values_of b visual_links))])
      (saved visual_links result)
| entry_not_saved b tr visual_links err :
    body req = Some b -> size b <> 0 ->
    missing_required_fields b = false ->
    resolve_attachments w req = (tr, inr visual_links) ->
    db_execute w query (Some (values_of b visual_links)) = DbErr err ->
    Answered w req
      (tr ++ EvDbExecute query (Some (values_of b visual_links)) :: column_check err)
      (not_saved w err).

(** ** The debug endpoint (index.js, lines 199-216) *)

(** [req.body] as echoed in JSON.  The entries come in the order of the
    finite map, not in the order in which the client sent them. *)
Definition echo_body (req : Request) : JsValue :=
  match body req with
  | Some b => JObj (map_to_list b)
  | None => JUndefined
  end.

(** [Object.keys(req.body || {})], with the same proviso on the order. *)
Definition body_keys (req : Request) : list string :=
  match body req with
  | Some b => List.map fst (map_to_list b)
  | None => []
  end.

(** [req.files ? req.files.length : 0] *)
Definition files_count (req : Request) : Z :=
  match files req with
  | Some fs => Z.of_nat (length fs)
  | None => 0%Z
  end.

(** [!!(req.body && req.body.full_name)] *)
Definition has_full_name (req : Request) : bool :=
  match body req with
  | Some b => truthy (field b "full_name")
  | None => false
  end.

(** The handler of [/api/test-form]; [res.json] leaves the status at 200. *)
Definition test_form_handler (req : Request) : Response :=
  res_json 200
    [ ("message", JStr "Form test successful");
      ("body", echo_body req);
      ("bodyKeys", JArr (List.map JStr (body_keys req)));
      ("filesCount", JNum (files_count req));
      ("hasFullName", JBool (has_full_name req)) ].

(** The route [POST /api/test-form]: multer, then the handler. *)
Definition test_form_route (req : Request) : Response :=
  match upload_array req with
  | inl err => default_error_handler err
  | inr req' => test_form_handler req'
  end.

(** A property of a JSON answer. *)
Definition json_field (key : string) (response : Response) : option JsValue :=
  match res_body response with
  | Json fields => snd <$> List.find (fun kv => String.eqb (fst kv) key) fields
  | ErrorPage => None
  end.

(** ** The connection test at start-up (index.js, lines 170-193) *)

Inductive PoolEvent : Type :=
| EvGetConnection (attempt : nat)     (* pool.promise().getConnection() *)
| EvRelease (attempt : nat)           (* connection.release() *)
| EvSetTimeout (ms : Z).              (* setTimeout(testDatabaseConnection, ms) *)

Section ConnectionTest.

(** How the n-th [getConnection] ends; [None]: a connection is handed out. *)
Variable get_connection : nat -> option JsError.

(** [testDatabaseConnection()], called for the [attempt]-th time; the timer
    calls it again.  [fuel] bounds the number of calls followed, and the
    result says whether the test came to an end within them. *)
Fixpoint testDatabaseConnection (fuel : nat) (attempt : nat)
  : list PoolEvent * bool :=
  match fuel with
  | O => ([], false)
  | S fuel' =>
      match get_connection attempt with
      | None => ([EvGetConnection attempt; EvRelease attempt], true)
      | Some err =>
          let '(tr, ended) := testDatabaseConnection fuel' (S attempt) in
          (EvGetConnection attempt :: EvSetTimeout 5000 :: tr, ended)
      end
  end.

End ConnectionTest.

(** One failed attempt: the call and the timer it sets. *)
Definition failed_attempt (attempt : nat) : list PoolEvent :=
  [EvGetConnection attempt; EvSetTimeout 5000].

(** The time spent waiting in a run. *)
Definition waited (tr : list PoolEvent) : Z :=
  fold_right (fun ev acc => match ev with EvSetTimeout ms => (ms + acc)%Z | _ => acc end)
    0%Z tr.

(** [pool.on("error", ...)]: the error that the listener throws, if any. *)
Definition pool_on_error (err : JsError) : option JsError :=
  match code err with
  | Some c => if String.eqb c "PROTOCOL_CONNECTION_LOST" then None else Some err
  | None => Some err
  end.

(** ** The revision before the checks (src/unnamed/part_000) *)

Module Previous.

(** What V8 throws for [const { full_name, ... } = undefined]. *)
Definition cannot_destructure : JsError :=
  new_TypeError
    "Cannot destructure property 'full_name' of 'req.body' as it is undefined.".

(** What V8 throws for [undefined.includes(...)]. *)
Definition cannot_read_includes : JsError :=
  new_TypeError "Cannot read properties of undefined (reading 'includes')".

(** [err.code === "ER_BAD_FIELD_ERROR" && err.sqlMessage.includes("visual_links")]:
    the second operand is evaluated only when the first holds, and throws
    when there is no [sqlMessage]. *)
Definition visual_links_column_issue (err : JsError) : JsError + bool :=
  match code err with
  | Some c =>
      if String.eqb c "ER_BAD_FIELD_ERROR"
      then match sqlMessage err with
           | Some m => inr (includes "visual_links" m)
           | None => inl cannot_read_includes
           end
      else inr false
  | None => inr false
  end.

Section Handler.

Variable w : World.

(** From [const query] to the end of the inner [try]/[catch]; the [error] of
    the 500 answer is [undefined] outside development. *)
Definition insert_entry (b : gmap string JsValue) (visual_links : JsValue)
  : Run.t Response :=
  let values := values_of b visual_links in
  Run.try_catch
    (do result <- execute w query (Some values);
     Run.ret (res_json 200
       [ ("message", JStr "Entry successfully submitted!");
         ("visual_links", visual_links);
         ("entry_id", JNum (insertId result)) ]))
    (fun err =>
       do issue <- ([], visual_links_column_issue err);
       do _ <- (if issue : bool
                then Run.try_catch
                       (do _ <- execute w show_columns None; Run.ret tt)
                       (fun checkErr => Run.ret tt)
                else Run.ret tt);
       Run.ret (res_json 500
         [ ("message", JStr "Error saving the entry.");
           ("error", if development w then JStr (message err) else JUndefined) ])).

(** The body of the outer [try]: no check of the body or of its fields. *)
Definition submit_entry (req : Request) : Run.t Response :=
  match body req with
  | None => Run.throw cannot_destructure
  | Some b =>
      do visual_links <- resolve_attachments w req;
      insert_entry b visual_links
  end.

Definition submit_entry_handler (req : Request) : Trace * Response :=
  match submit_entry req with
  | (tr, inr response) => (tr, response)
  | (tr, inl error) =>
      (tr, res_json 500
             [ ("message", JStr "Error processing submission.");
               ("error", JStr (message error)) ])
  end.

End Handler.

End Previous.

(** ** More on traces and worlds *)

(** The fields the handler reads from the body. *)
Definition form_fields : list string :=
  List.filter (fun column => negb (String.eqb column "visual_links")) insert_columns.

(** The files whose send has settled, in the order of settlement. *)
Definition settled (tr : Trace) : list nat :=
  omap (fun ev => match ev with EvS3Settled i _ => Some i | _ => None end) tr.

Definition is_column_check (ev : Event) : bool :=
  match ev with
  | EvDbExecute sql None => String.eqb sql show_columns
  | _ => false
  end.

(** The same world with the sends settling at other times. *)
Definition with_settle_time (w : World) (time : nat -> nat) : World :=
  {| env := env w;
     date_now := date_now w;
     random_id := random_id w;
     s3_send := s3_send w;
     s3_settle_time := time;
     db_execute := db_execute w |}.

(** The same world with another database. *)
Definition with_database (w : World)
    (db : string -> option (list JsValue) -> DbResult) : World :=
  {| env := env w;
     date_now := date_now w;
     random_id := random_id w;
     s3_send := s3_send w;
     s3_settle_time := s3_settle_time w;
     db_execute := db |}.

(** The store refuses every file, each with its own message, and the later
    files settle first. *)
Definition all_refused : World :=
  {| env := Sample.required_env;
     date_now := fun _ => 1730000000000%Z;
     random_id := fun _ => "k3x9";
     s3_send := fun i _ =>
       Some (new_Error (if (i =? 0)%nat then "first" else "second"));
     s3_settle_time := fun i => 10 - i;
     db_execute := Mysql2.execute Sample.accepting_server |}.

(** The whole form with the name left empty, not multipart. *)
Definition unnamed_form : gmap string JsValue :=
  <["full_name" := JStr EmptyString]> Sample.jane_form.

Definition unnamed_entry : Request :=
  {| body := Some unnamed_form; files := None |}.

(** An error with the code for an unknown column and no SQL message. *)
Definition bad_field_without_message : JsError :=
  {| message := "Unknown column";
     code := Some "ER_BAD_FIELD_ERROR";
     sqlMessage := None;
     status := None |}.

(** No hyphen in the string. *)
Definition no_dash (s : string) : Prop :=
  Forall (fun c => c <> "-"%char) (list_ascii_of_string s).

(** The send that the i-th file gives rise to. *)
Definition send_of (w : World) (i : nat) (file : File) : Event :=
  EvS3Send i (put_params w file (file_key w i file)).

(** * Properties *)

(** ** The uploader *)

Section UploaderFacts.

Variable w : World.

Lemma watch_all_fulfilled order tr :
  watch order = (tr, None) ->
  Forall (fun p => is_Some (fulfilled p)) order /\ tr = List.map settled_ok order.
Proof.
  revert tr. induction order as [|p later IH]; intros tr; simpl.
  - intros [= <-]. split; [constructor | reflexivity].
  - unfold fulfilled at 1. destruct (pend_outcome p) as [e|url] eqn:Hp; [discriminate|].
    destruct (watch later) as [tr' r] eqn:Hw. intros [= <- ->].
    destruct (IH tr' eq_refl) as [Hall ->]. split; [|reflexivity].
    constructor; [|exact Hall]. unfold fulfilled. rewrite Hp. eauto.
Qed.

Lemma watch_rejected order tr err :
  watch order = (tr, Some err) ->
  exists before p later,
    order = before ++ p :: later /\
    Forall (fun q => is_Some (fulfilled q)) before /\
    pend_outcome p = inl err /\
    tr = List.map settled_ok before ++ [EvS3Settled (pend_index p) (Some err)].
Proof.
  revert tr. induction order as [|p later IH]; intros tr; simpl.
  - discriminate.
  - destruct (pend_outcome p) as [e|url] eqn:Hp.
    + intros [= <- <-]. exists [], p, later. repeat split; auto.
    + destruct (watch later) as [tr' r] eqn:Hw. intros [= <- ->].
      destruct (IH tr' eq_refl) as (before & q & rest & -> & Hb & Hq & ->).
      exists (p :: before), q, rest. repeat split; auto.
      constructor; [|exact Hb]. unfold fulfilled. rewrite Hp. eauto.
Qed.

(** A promise of the batch is the upload of the file at its index. *)
Lemma started_promise (fs : list File) (p : Pending) :
  p ∈ List.map snd (start_uploads w fs) ->
  exists file, fs !! pend_index p = Some file /\
               p = snd (uploadToS3 w (pend_index p) file (file_key w (pend_index p) file)).
Proof.
  intros Hp. apply list_elem_of_fmap in Hp as ([ev q] & -> & Hin).
  unfold start_uploads in Hin. apply elem_of_lookup_imap in Hin as (i & file & Heq & Hi).
  exists file. unfold uploadToS3 in *. inversion Heq; subst; simpl. auto.
Qed.

Lemma started_length (fs : list File) : length (start_uploads w fs) = length fs.
Proof. unfold start_uploads. apply length_imap. Qed.

Lemma promise_of_file (fs : list File) i file :
  fs !! i = Some file ->
  snd (uploadToS3 w i file (file_key w i file)) ∈ List.map snd (start_uploads w fs).
Proof.
  intros Hi. apply list_elem_of_fmap.
  exists (uploadToS3 w i file (file_key w i file)). split; [reflexivity|].
  unfold start_uploads. apply elem_of_lookup_imap. eauto.
Qed.

Lemma settle_order_perm (ps : list Pending) : settle_order ps ≡ₚ ps.
Proof. unfold settle_order. apply merge_sort_Permutation. Qed.

Lemma watch_events order tr r ev :
  watch order = (tr, r) -> ev ∈ tr ->
  exists p, p ∈ order /\ ev = EvS3Settled (pend_index p) (reported p).
Proof.
  revert tr. induction order as [|p later IH]; intros tr; simpl.
  - intros [= <- <-] Hin. inversion Hin.
  - destruct (pend_outcome p) as [e|url] eqn:Hp.
    + intros [= <- <-] Hin. apply list_elem_of_singleton in Hin as ->.
      exists p. split; [left|]. unfold reported. now rewrite Hp.
    + destruct (watch later) as [tr' r'] eqn:Hw. intros [= <- <-] Hin.
      apply elem_of_cons in Hin as [-> | Hin].
      * exists p. split; [left|]. unfold reported. now rewrite Hp.
      * destruct (IH tr' eq_refl Hin) as (q & Hq & ->). exists q. split; [now right | reflexivity].
Qed.

Lemma reported_started (fs : list File) (p : Pending) :
  p ∈ List.map snd (start_uploads w fs) ->
  exists file, fs !! pend_index p = Some file /\
    reported p = s3_send w (pend_index p)
                   (put_params w file (file_key w (pend_index p) file)).
Proof.
  intros Hp. destruct (started_promise fs p Hp) as (file & Hi & Heq).
  exists file. split; [exact Hi|]. rewrite Heq at 1. unfold reported, uploadToS3. simpl.
  now destruct (s3_send w _ _).
Qed.

Lemma omap_Forall2 {A B} (f : A -> option B) (l : list A) (l' : list B) :
  Forall2 (fun x y => f x = Some y) l l' -> omap f l = l'.
Proof.
  induction 1 as [|x y l l' Hxy _ IH]; [reflexivity|].
  rewrite <- IH. simpl. now rewrite Hxy.
Qed.

(** When every send is stored, the promises carry the reference URLs. *)
Lemma fulfilled_urls (fs : list File) :
  (forall i file, fs !! i = Some file ->
     s3_send w i (put_params w file (file_key w i file)) = None) ->
  omap fulfilled (List.map snd (start_uploads w fs)) = reference_urls w fs.
Proof.
  intros Hall. apply omap_Forall2. apply Forall2_same_length_lookup. split.
  - rewrite length_map, started_length. unfold reference_urls. now rewrite length_imap.
  - intros i p url Hp Hu. unfold reference_urls in Hu. unfold start_uploads in Hp.
    change (List.map snd ?l) with (snd <$> l) in Hp.
    rewrite list_lookup_fmap, list_lookup_imap in Hp. rewrite list_lookup_imap in Hu.
    destruct (fs !! i) as [file|] eqn:Hi; simpl in *; [|discriminate].
    injection Hp as <-. injection Hu as <-.
    unfold fulfilled, uploadToS3. simpl. now rewrite (Hall i file Hi).
Qed.

End UploaderFacts.

(** ** Resolving the attachments *)

Section AttachmentFacts.

Variable w : World.

Lemma resolve_no_attachments req :
  attachments req = 0 -> resolve_attachments w req = ([], inr JNull).
Proof.
  unfold attachments, resolve_attachments, has_files.
  destruct (files req) as [fs|]; [|reflexivity].
  intros ->. reflexivity.
Qed.

Lemma resolve_with_attachments req fs :
  files req = Some fs -> 0 < length fs ->
  resolve_attachments w req =
    match watch (settle_order (List.map snd (start_uploads w fs))) with
    | (tr, Some err) => (List.map fst (start_uploads w fs) ++ tr, inl err)
    | (tr, None) =>
        (List.map fst (start_uploads w fs) ++ tr,
         inr (JStr (String.concat ","
                (omap fulfilled (List.map snd (start_uploads w fs))))))
    end.
Proof.
  intros Hf Hlen. unfold resolve_attachments, has_files. rewrite Hf.
  destruct (Nat.ltb_spec 0 (length fs)) as [_|]; [|lia].
  unfold uploadMultipleFilesToS3.
  destruct (Nat.eqb_spec (length fs) 0) as [|_]; [lia|].
  unfold Promise_all.
  destruct (watch _) as [tr [err|]]; simpl; [reflexivity|].
  now rewrite app_nil_r.
Qed.

Lemma sends_are_sends (fs : list File) ev :
  ev ∈ List.map fst (start_uploads w fs) -> exists i params, ev = EvS3Send i params.
Proof.
  intros Hev. apply list_elem_of_fmap in Hev as ([e p] & -> & Hin).
  unfold start_uploads in Hin. apply elem_of_lookup_imap in Hin as (i & file & Heq & _).
  unfold uploadToS3 in Heq. inversion Heq; subst. simpl. eauto.
Qed.

(** Every event of the stage is a call to the object store, and a
    settlement reports what the store answered for that file. *)
Lemma resolve_events req tr r ev :
  resolve_attachments w req = (tr, r) -> ev ∈ tr ->
  (exists i params, ev = EvS3Send i params) \/
  (exists fs i file, files req = Some fs /\ fs !! i = Some file /\
     ev = EvS3Settled i (s3_send w i (put_params w file (file_key w i file)))).
Proof.
  intros Hres Hev. destruct (attachments req) as [|n] eqn:Hn.
  - rewrite (resolve_no_attachments req Hn) in Hres. injection Hres as <- <-. inversion Hev.
  - unfold attachments in Hn. destruct (files req) as [fs|] eqn:Hf; [|discriminate].
    rewrite (resolve_with_attachments req fs Hf) in Hres by lia.
    destruct (watch _) as [trw rw] eqn:Hw.
    assert (Htr : tr = List.map fst (start_uploads w fs) ++ trw)
      by (destruct rw; now injection Hres as <- _).
    subst tr. apply elem_of_app in Hev as [Hev|Hev].
    + left. eapply sends_are_sends; eauto.
    + right. destruct (watch_events _ _ _ _ Hw Hev) as (p & Hp & ->).
      rewrite settle_order_perm in Hp.
      destruct (reported_started w fs p Hp) as (file & Hi & ->).
      exists fs, (pend_index p), file. auto.
Qed.

Lemma resolve_only_uploads req tr r :
  resolve_attachments w req = (tr, r) -> inserts tr = [] /\ uploads tr = tr.
Proof.
  intros Hres.
  assert (Hall : Forall (fun ev => is_upload ev = true /\ is_insert ev = false) tr).
  { apply Forall_forall. intros ev Hev.
    destruct (resolve_events req tr r ev Hres Hev)
      as [(i & params & ->) | (fs & i & file & _ & _ & ->)]; now split. }
  clear Hres. unfold inserts, uploads.
  induction Hall as [|ev tr [Hu Hi] _ [IH1 IH2]]; simpl; [now split|].
  rewrite Hu, Hi, IH2. now split.
Qed.

(** The stage ends well: there was nothing to upload, or every file was
    stored and the result joins the reference URLs in the order of
    [req.files]. *)
Lemma resolve_fulfilled req tr visual_links :
  resolve_attachments w req = (tr, inr visual_links) ->
  (attachments req = 0 /\ tr = [] /\ visual_links = JNull) \/
  (exists fs, files req = Some fs /\ 0 < length fs /\
     visual_links = JStr (String.concat "," (reference_urls w fs)) /\
     forall i, i < length fs -> EvS3Settled i None ∈ tr).
Proof.
  intros Hres. destruct (attachments req) as [|n] eqn:Hn.
  - left. rewrite (resolve_no_attachments req Hn) in Hres. injection Hres as <- <-. auto.
  - right. unfold attachments in Hn. destruct (files req) as [fs|] eqn:Hf; [|discriminate].
    exists fs. split; [reflexivity|]. split; [lia|].
    rewrite (resolve_with_attachments req fs Hf) in Hres by lia.
    destruct (watch _) as [trw [err|]] eqn:Hw; [discriminate|].
    injection Hres as <- <-.
    destruct (watch_all_fulfilled _ _ Hw) as [Hall ->].
    rewrite settle_order_perm in Hall.
    assert (Hstored : forall i file, fs !! i = Some file ->
              s3_send w i (put_params w file (file_key w i file)) = None).
    { intros i file Hi. rewrite Forall_forall in Hall.
      specialize (Hall _ (promise_of_file w fs i file Hi)).
      unfold fulfilled, uploadToS3 in Hall. simpl in Hall.
      destruct (s3_send w i _); [now destruct Hall | reflexivity]. }
    split.
    + now rewrite (fulfilled_urls w fs Hstored).
    + intros i Hi. apply elem_of_app. right.
      destruct (lookup_lt_is_Some_2 fs i Hi) as [file Hfile].
      apply list_elem_of_fmap.
      exists (snd (uploadToS3 w i file (file_key w i file))). split; [reflexivity|].
      rewrite settle_order_perm. now apply promise_of_file.
Qed.

(** The stage fails: one rejection was seen, and it is the error thrown. *)
Lemma resolve_rejected req tr err :
  resolve_attachments w req = (tr, inl err) ->
  (exists i, EvS3Settled i (Some err) ∈ tr) /\
  (forall j err', EvS3Settled j (Some err') ∈ tr -> err' = err).
Proof.
  intros Hres. destruct (attachments req) as [|n] eqn:Hn.
  - rewrite (resolve_no_attachments req Hn) in Hres. discriminate.
  - unfold attachments in Hn. destruct (files req) as [fs|] eqn:Hf; [|discriminate].
    rewrite (resolve_with_attachments req fs Hf) in Hres by lia.
    destruct (watch _) as [trw [e|]] eqn:Hw; [|discriminate].
    injection Hres as <- <-.
    destruct (watch_rejected _ _ _ Hw) as (before & p & later & _ & _ & _ & ->).
    split.
    + exists (pend_index p). rewrite !elem_of_app. right. right. left.
    + intros j err' Hin. rewrite !elem_of_app in Hin. destruct Hin as [Hin|[Hin|Hin]].
      * apply sends_are_sends in Hin as (i & params & [=]).
      * apply list_elem_of_fmap in Hin as (q & [=] & _).
      * apply list_elem_of_singleton in Hin. now injection Hin.
Qed.

(** A send the store refuses makes the stage fail. *)
Lemma refused_send_rejects req fs i file err0 :
  files req = Some fs -> fs !! i = Some file ->
  s3_send w i (put_params w file (file_key w i file)) = Some err0 ->
  exists tr err, resolve_attachments w req = (tr, inl err).
Proof.
  intros Hf Hi Hsend.
  destruct (resolve_attachments w req) as [tr [err|vl]] eqn:Hres; [eauto|].
  exfalso. destruct (resolve_fulfilled req tr vl Hres) as [(Hn & _) | (fs' & Hf' & _ & _ & Hall)].
  - unfold attachments in Hn. rewrite Hf in Hn.
    apply lookup_lt_Some in Hi. lia.
  - rewrite Hf in Hf'. injection Hf' as <-.
    specialize (Hall i (lookup_lt_Some _ _ _ Hi)).
    destruct (resolve_events req tr _ _ Hres Hall)
      as [(? & ? & [=]) | (fs' & i' & file' & Hf' & Hi' & Heq)].
    rewrite Hf in Hf'. injection Hf' as <-. injection Heq as <- Hnone.
    rewrite Hi in Hi'. injection Hi' as <-. congruence.
Qed.

End AttachmentFacts.

(** ** The paths through the handler *)

Section HandlerFacts.

Variable w : World.

Lemma insert_entry_run b visual_links :
  insert_entry w b visual_links =
    match db_execute w query (Some (values_of b visual_links)) with
    | DbOk result =>
        ([EvDbExecute query (Some (values_of b visual_links))],
         inr (saved visual_links result))
    | DbErr err =>
        (EvDbExecute query (Some (values_of b visual_links)) :: column_check err,
         inr (not_saved w err))
    end.
Proof.
  unfold insert_entry, execute, column_check, Run.try_catch, Run.bind, Run.ret.
  destruct (db_execute w query _) as [result|err]; [reflexivity|].
  destruct (visual_links_column_issue err); [|reflexivity].
  destruct (db_execute w show_columns None); reflexivity.
Qed.

Lemma handler_answered req tr response :
  submit_entry_handler w req = (tr, response) -> Answered w req tr response.
Proof.
  unfold submit_entry_handler, submit_entry.
  destruct (body req) as [b|] eqn:Hb.
  2:{ intros [= <- <-]. apply no_form. unfold received_fields. now rewrite Hb. }
  destruct (Nat.eqb_spec (size b) 0) as [Hz|Hnz].
  { intros [= <- <-]. apply no_form. unfold received_fields. now rewrite Hb. }
  destruct (missing_required_fields b) eqn:Hm.
  { intros [= <- <-]. now apply (missing_fields w req b). }
  destruct (resolve_attachments w req) as [tru [err|visual_links]] eqn:Hres.
  { intros [= <- <-]. now apply (upload_failed w req b). }
  unfold Run.bind. rewrite insert_entry_run.
  destruct (db_execute w query _) as [result|err] eqn:Hdb; intros [= <- <-].
  - now apply (entry_saved w req b).
  - now apply (entry_not_saved w req b).
Qed.

End HandlerFacts.

(** ** The route *)

Lemma accept_allowed (parts : list File) :
  Forall (fun file => mime_allowed file = true) parts -> accept_parts parts = inr parts.
Proof.
  induction 1 as [|file parts Hfile _ IH]; simpl; [reflexivity|].
  unfold fileFilter. now rewrite Hfile, IH.
Qed.

Lemma accept_refused (parts : list File) :
  Exists (fun file => mime_allowed file = false) parts ->
  accept_parts parts = inl invalid_file_type.
Proof.
  induction 1 as [file parts Hfile | file parts _ IH]; simpl; unfold fileFilter.
  - now rewrite Hfile.
  - destruct (mime_allowed file); [now rewrite IH | reflexivity].
Qed.

Lemma route_allowed (w : World) (req : Request) (fs : list File) :
  files req = Some fs -> Forall (fun file => mime_allowed file = true) fs ->
  submit_entry_route w req = submit_entry_handler w req.
Proof.
  intros Hf Hall. unfold submit_entry_route, upload_array.
  rewrite Hf, (accept_allowed fs Hall). destruct req as [bd fl]. simpl in *. now subst.
Qed.

Lemma route_refused (w : World) (req : Request) (fs : list File) :
  files req = Some fs -> Exists (fun file => mime_allowed file = false) fs ->
  submit_entry_route w req = ([], default_error_handler invalid_file_type).
Proof.
  intros Hf Hbad. unfold submit_entry_route, upload_array.
  now rewrite Hf, (accept_refused fs Hbad).
Qed.

Lemma allowed_or_refused (fs : list File) :
  Forall (fun file => mime_allowed file = true) fs \/
  Exists (fun file => mime_allowed file = false) fs.
Proof.
  induction fs as [|file fs [IH|IH]].
  - left. constructor.
  - destruct (mime_allowed file) eqn:Hfile.
    + left. now constructor.
    + right. now constructor.
  - right. now constructor 2.
Qed.

Lemma route_cases (w : World) (req : Request) :
  submit_entry_route w req = submit_entry_handler w req \/
  submit_entry_route w req = ([], default_error_handler invalid_file_type).
Proof.
  destruct (files req) as [fs|] eqn:Hf.
  - destruct (allowed_or_refused fs) as [Hall|Hbad].
    + left. now apply (route_allowed w req fs).
    + right. now apply (route_refused w req fs).
  - left. unfold submit_entry_route, upload_array. now rewrite Hf.
Qed.

Lemma route_no_attachments (w : World) (req : Request) :
  attachments req = 0 -> submit_entry_route w req = submit_entry_handler w req.
Proof.
  unfold attachments. destruct (files req) as [fs|] eqn:Hf.
  - intros Hlen. destruct fs; [|discriminate].
    apply (route_allowed w req []); [exact Hf | constructor].
  - intros _. unfold submit_entry_route, upload_array. now rewrite Hf.
Qed.

(** ** Rejections *)

Lemma received_fields_zero req :
  received_fields req = 0 <-> body req = None \/ body req = Some ∅.
Proof.
  unfold received_fields. destruct (body req) as [b|].
  - rewrite map_size_empty_iff. split; [intros ->; now right | intros [[=]|[= ->]]; reflexivity].
  - split; [now left | reflexivity].
Qed.

Lemma messages_differ : no_form_data <> missing_required.
Proof. discriminate. Qed.

(** C10: a request whose parsed body is absent or has no field at all is
    answered 400 with the message "No form data received...", which is
    not the message of the required-field check, and nothing is called
    before (or after) that answer: no upload and no insert. *)
Theorem C10_no_form_data_rejected_first (w : World) (req : Request) :
  body req = None \/ body req = Some ∅ ->
  submit_entry_handler w req = ([], rejected no_form_data)
  /\ res_status (snd (submit_entry_handler w req)) = 400%Z
  /\ uploads (fst (submit_entry_handler w req)) = []
  /\ inserts (fst (submit_entry_handler w req)) = []
  /\ no_form_data <> missing_required.
Proof.
  intros Hempty. apply received_fields_zero in Hempty.
  assert (Hrun : submit_entry_handler w req = ([], rejected no_form_data)).
  { destruct (submit_entry_handler w req) as [tr response] eqn:Hh.
    destruct (handler_answered w req tr response Hh); try reflexivity;
      unfold received_fields in Hempty;
      match goal with Hb : body req = Some _ |- _ => rewrite Hb in Hempty end;
      contradiction. }
  rewrite Hrun. repeat split. apply messages_differ.
Qed.

Lemma C10_no_form_data_rejected_first_witness :
  (body Sample.no_fields = None \/ body Sample.no_fields = Some ∅)
  /\ submit_entry_handler (Sample.healthy None) Sample.no_fields
       = ([], rejected no_form_data)
  /\ res_status (snd (submit_entry_handler (Sample.healthy None) Sample.no_fields)) = 400%Z
  /\ uploads (fst (submit_entry_handler (Sample.healthy None) Sample.no_fields)) = []
  /\ inserts (fst (submit_entry_handler (Sample.healthy None) Sample.no_fields)) = []
  /\ no_form_data <> missing_required.
Proof.
  split; [right; reflexivity|].
  apply (C10_no_form_data_rejected_first (Sample.healthy None) Sample.no_fields).
  right. reflexivity.
Defined.

Lemma missing_of_request req b :
  body req = Some b ->
  required_field_missing req <-> missing_required_fields b = true.
Proof.
  intros Hb. unfold required_field_missing, request_field, missing_required_fields.
  rewrite Hb, orb_true_iff, !negb_true_iff. reflexivity.
Qed.

(** C2, as amended: when [full_name] or [email_address] is missing (absent
    or falsy) the handler answers 400 and calls neither the object store
    nor the database; the answer names the two required fields when the
    body has at least one field, and is the "No form data received"
    message when the body is absent or empty. *)
Theorem C2_missing_required_rejected (w : World) (req : Request) :
  required_field_missing req ->
  fst (submit_entry_handler w req) = []
  /\ res_status (snd (submit_entry_handler w req)) = 400%Z
  /\ (0 < received_fields req ->
        snd (submit_entry_handler w req) = rejected missing_required
        /\ names_required_fields (snd (submit_entry_handler w req)) = true)
  /\ (received_fields req = 0 ->
        snd (submit_entry_handler w req) = rejected no_form_data).
Proof.
  intros Hmiss.
  destruct (submit_entry_handler w req) as [tr response] eqn:Hh.
  destruct (handler_answered w req tr response Hh) as
    [Hz | b Hb Hnz Hm | b tru err Hb Hnz Hm _ | b tru vl result Hb Hnz Hm _ _
     | b tru vl err Hb Hnz Hm _ _]; simpl.
  - split; [reflexivity|]. split; [reflexivity|].
    split; [intros; lia | reflexivity].
  - assert (Hpos : received_fields req <> 0) by (unfold received_fields; now rewrite Hb).
    split; [reflexivity|]. split; [reflexivity|].
    split; [intros _; split; reflexivity | intros; contradiction].
  - apply (missing_of_request req b Hb) in Hmiss. congruence.
  - apply (missing_of_request req b Hb) in Hmiss. congruence.
  - apply (missing_of_request req b Hb) in Hmiss. congruence.
Qed.

Lemma C2_missing_required_rejected_witness :
  required_field_missing Sample.nameless
  /\ fst (submit_entry_handler (Sample.healthy None) Sample.nameless) = []
  /\ res_status (snd (submit_entry_handler (Sample.healthy None) Sample.nameless)) = 400%Z
  /\ (0 < received_fields Sample.nameless ->
        snd (submit_entry_handler (Sample.healthy None) Sample.nameless)
          = rejected missing_required
        /\ names_required_fields
             (snd (submit_entry_handler (Sample.healthy None) Sample.nameless)) = true)
  /\ (received_fields Sample.nameless = 0 ->
        snd (submit_entry_handler (Sample.healthy None) Sample.nameless)
          = rejected no_form_data).
Proof.
  split; [left; reflexivity|].
  apply (C2_missing_required_rejected (Sample.healthy None) Sample.nameless).
  left. reflexivity.
Defined.

(** C2, as stated, fails on a body without fields: [full_name] is missing,
    yet the 400 answer does not name the required fields. *)
Lemma C2_counterexample :
  required_field_missing Sample.no_fields
  /\ snd (submit_entry_handler (Sample.healthy None) Sample.no_fields)
       = rejected no_form_data
  /\ names_required_fields
       (snd (submit_entry_handler (Sample.healthy None) Sample.no_fields)) = false.
Proof. split; [left; reflexivity|]. split; reflexivity. Qed.

(** ** Inserts in a trace *)

Lemma is_insert_query values : is_insert (EvDbExecute query values) = true.
Proof. unfold is_insert. apply String.eqb_refl. Qed.

Lemma inserts_app tr1 tr2 : inserts (tr1 ++ tr2) = inserts tr1 ++ inserts tr2.
Proof. apply List.filter_app. Qed.

Lemma column_check_no_insert err : inserts (column_check err) = [].
Proof.
  unfold column_check, inserts.
  destruct (visual_links_column_issue err); [|reflexivity].
  vm_compute. reflexivity.
Qed.

Lemma inserts_saved tr values :
  inserts tr = [] ->
  inserts (tr ++ [EvDbExecute query values]) = [EvDbExecute query values].
Proof.
  intros Htr. rewrite inserts_app, Htr. unfold inserts. cbn [List.filter app].
  now rewrite is_insert_query.
Qed.

Lemma inserts_not_saved tr values err :
  inserts tr = [] ->
  inserts (tr ++ EvDbExecute query values :: column_check err)
    = [EvDbExecute query values].
Proof.
  intros Htr.
  change (tr ++ EvDbExecute query values :: column_check err)
    with (tr ++ [EvDbExecute query values] ++ column_check err).
  rewrite app_assoc, inserts_app, (inserts_saved tr values Htr), column_check_no_insert.
  reflexivity.
Qed.

Lemma insert_seen tr ev : ev ∈ tr -> is_insert ev = true -> inserts tr <> [].
Proof.
  intros Hin Hev Hnone.
  assert (Hf : In ev (inserts tr)) by (apply filter_In; split; [now apply list_elem_of_In | exact Hev]).
  rewrite Hnone in Hf. destruct Hf.
Qed.

(** The first insert of a trace comes after everything that precedes the
    statement in it. *)
Lemma insert_after (tr pre post rest : Trace) ins ev :
  inserts tr = [] ->
  tr ++ ins :: rest = pre ++ ev :: post -> is_insert ev = true ->
  exists mid, pre = tr ++ mid.
Proof.
  revert pre. induction tr as [|x tr IH]; intros pre Hnone Heq Hev.
  - exists pre. reflexivity.
  - unfold inserts in Hnone. simpl in Hnone.
    destruct (is_insert x) eqn:Hx; [discriminate|].
    destruct pre as [|y pre]; simpl in Heq; injection Heq as -> Heq.
    + congruence.
    + destruct (IH pre Hnone Heq Hev) as [mid ->]. exists mid. reflexivity.
Qed.

Lemma parameter_visual_links b visual_links :
  parameter_of "visual_links" (values_of b visual_links) = Some visual_links.
Proof. reflexivity. Qed.

(** ** Accepted requests *)

Lemma accepted_not_missing b :
  truthy (field b "full_name") = true ->
  truthy (field b "email_address") = true ->
  missing_required_fields b = false.
Proof. intros Hn He. unfold missing_required_fields. now rewrite Hn, He. Qed.

(** C5: with no attachment and both required fields valid, the call of the
    uploader is skipped and the object store is never called, the value
    bound to [visual_links] is [null],
    the only insert is that statement, and when the insert succeeds the
    answer is 200 with the message, [visual_links: null] and the
    generated key as [entry_id]. *)
Theorem C5_no_attachments_null_links (w : World) (req : Request)
    (b : gmap string JsValue) :
  body req = Some b -> size b <> 0 ->
  truthy (field b "full_name") = true ->
  truthy (field b "email_address") = true ->
  attachments req = 0 ->
  has_files req = false
  /\ uploads (fst (submit_entry_route w req)) = []
  /\ inserts (fst (submit_entry_route w req))
       = [EvDbExecute query (Some (values_of b JNull))]
  /\ parameter_of "visual_links" (values_of b JNull) = Some JNull
  /\ (forall result,
        db_execute w query (Some (values_of b JNull)) = DbOk result ->
        submit_entry_route w req =
          ([EvDbExecute query (Some (values_of b JNull))],
           res_json 200
             [ ("message", JStr "Entry successfully submitted!");
               ("visual_links", JNull);
               ("entry_id", JNum (insertId result)) ])).
Proof.
  intros Hb Hnz Hname Hmail Hnone.
  split.
  { unfold has_files, attachments in *. destruct (files req); [now rewrite Hnone | reflexivity]. }
  rewrite (route_no_attachments w req Hnone).
  pose proof (accepted_not_missing b Hname Hmail) as Hacc.
  pose proof (resolve_no_attachments w req Hnone) as Hres.
  destruct (submit_entry_handler w req) as [tr response] eqn:Hh.
  destruct (handler_answered w req tr response Hh) as
    [Hz | b' Hb' _ Hm | b' tru err Hb' _ _ Hup | b' tru vl result Hb' _ _ Hup Hdb
     | b' tru vl err Hb' _ _ Hup Hdb].
  - unfold received_fields in Hz. rewrite Hb in Hz. contradiction.
  - rewrite Hb in Hb'. injection Hb' as <-. congruence.
  - rewrite Hres in Hup. discriminate.
  - rewrite Hb in Hb'. injection Hb' as <-.
    rewrite Hres in Hup. injection Hup as <- <-. simpl fst.
    split; [reflexivity|]. split; [now apply (inserts_saved [])|].
    split; [reflexivity|].
    intros result' Hok. rewrite Hdb in Hok. injection Hok as <-. reflexivity.
  - rewrite Hb in Hb'. injection Hb' as <-.
    rewrite Hres in Hup. injection Hup as <- <-. simpl fst.
    split.
    { unfold uploads, column_check. cbn [app List.filter is_upload].
      now destruct (visual_links_column_issue err). }
    split; [now apply (inserts_not_saved [])|].
    split; [reflexivity|].
    intros result' Hok. rewrite Hdb in Hok. discriminate.
Qed.

Lemma C5_no_attachments_null_links_witness :
  body Sample.plain_entry = Some Sample.jane_form
  /\ size Sample.jane_form <> 0
  /\ truthy (field Sample.jane_form "full_name") = true
  /\ truthy (field Sample.jane_form "email_address") = true
  /\ attachments Sample.plain_entry = 0
  /\ db_execute (Sample.healthy None) query (Some (values_of Sample.jane_form JNull))
       = DbOk {| insertId := 7 |}
  /\ submit_entry_route (Sample.healthy None) Sample.plain_entry =
       ([EvDbExecute query (Some (values_of Sample.jane_form JNull))],
        res_json 200
          [ ("message", JStr "Entry successfully submitted!");
            ("visual_links", JNull);
            ("entry_id", JNum 7) ]).
Proof.
  assert (Hsize : size Sample.jane_form <> 0) by (vm_compute; discriminate).
  assert (Hdb : db_execute (Sample.healthy None) query
                  (Some (values_of Sample.jane_form JNull)) = DbOk {| insertId := 7 |})
    by (vm_compute; reflexivity).
  repeat (split; [first [reflexivity | exact Hsize | exact Hdb]|]).
  exact (proj2 (proj2 (proj2 (proj2
           (C5_no_attachments_null_links (Sample.healthy None) Sample.plain_entry
              Sample.jane_form eq_refl Hsize eq_refl eq_refl eq_refl))))
           _ Hdb).
Defined.

(** ** Uploads and the insert *)

Lemma settlement_reports (w : World) (req : Request) tr r fs i file failure :
  resolve_attachments w req = (tr, r) ->
  files req = Some fs -> fs !! i = Some file ->
  EvS3Settled i failure ∈ tr ->
  failure = s3_send w i (put_params w file (file_key w i file)).
Proof.
  intros Hres Hf Hi Hin.
  destruct (resolve_events w req tr r _ Hres Hin)
    as [(? & ? & [=]) | (fs' & i' & file' & Hf' & Hi' & Heq)].
  rewrite Hf in Hf'. injection Hf' as <-. injection Heq as <- ->.
  rewrite Hi in Hi'. now injection Hi' as <-.
Qed.

(** C1: a request with N >= 1 attachments, all of allowed types, each of
    whose uploads settles successfully: the value built by the uploader
    is the N reference URLs, in the order of the attachments, joined with
    a comma; the insert is issued exactly once, with that value bound to
    [visual_links]; and the 200 answer echoes it. *)
Theorem C1_visual_links_joined_in_order (w : World) (req : Request)
    (fs : list File) :
  files req = Some fs -> 1 <= length fs ->
  Forall (fun file => mime_allowed file = true) fs ->
  (forall i, i < length fs ->
     EvS3Settled i None ∈ fst (submit_entry_route w req)) ->
  length (reference_urls w fs) = length fs
  /\ (forall i file, fs !! i = Some file ->
        reference_urls w fs !! i = Some (s3_url w (file_key w i file)))
  /\ exists b,
       body req = Some b
       /\ resolve_attachments w req
            = (uploads (fst (submit_entry_route w req)),
               inr (JStr (String.concat "," (reference_urls w fs))))
       /\ inserts (fst (submit_entry_route w req))
            = [EvDbExecute query
                 (Some (values_of b (JStr (String.concat "," (reference_urls w fs)))))]
       /\ parameter_of "visual_links"
            (values_of b (JStr (String.concat "," (reference_urls w fs))))
            = Some (JStr (String.concat "," (reference_urls w fs)))
       /\ (forall result,
             db_execute w query
               (Some (values_of b (JStr (String.concat "," (reference_urls w fs)))))
               = DbOk result ->
             snd (submit_entry_route w req) =
               res_json 200
                 [ ("message", JStr "Entry successfully submitted!");
                   ("visual_links", JStr (String.concat "," (reference_urls w fs)));
                   ("entry_id", JNum (insertId result)) ])
       /\ (res_status (snd (submit_entry_route w req)) = 200%Z ->
             exists result,
               db_execute w query
                 (Some (values_of b (JStr (String.concat "," (reference_urls w fs)))))
                 = DbOk result).
Proof.
  intros Hf Hlen Hallowed Hsettled.
  rewrite (route_allowed w req fs Hf Hallowed) in *.
  split; [unfold reference_urls; apply length_imap|].
  split; [intros i file Hi; unfold reference_urls; now rewrite list_lookup_imap, Hi|].
  assert (H0 : 0 < length fs) by lia.
  destruct (submit_entry_handler w req) as [tr response] eqn:Hh. simpl fst in *. simpl snd.
  destruct (handler_answered w req tr response Hh) as
    [Hz | b Hb _ Hm | b tru err Hb _ _ Hup | b tru vl result Hb _ _ Hup Hdb
     | b tru vl err Hb _ _ Hup Hdb].
  - specialize (Hsettled 0 H0). inversion Hsettled.
  - specialize (Hsettled 0 H0). inversion Hsettled.
  - exfalso. destruct (resolve_rejected w req tru err Hup) as [[j Hj] _].
    destruct (resolve_events w req tru _ _ Hup Hj)
      as [(? & ? & [=]) | (fs' & j' & file & Hf' & Hfile & Heq)].
    rewrite Hf in Hf'. injection Hf' as <-. injection Heq as <- Hrefused.
    specialize (Hsettled j (lookup_lt_Some _ _ _ Hfile)).
    pose proof (settlement_reports w req tru _ fs j file None Hup Hf Hfile Hsettled).
    congruence.
  - destruct (resolve_fulfilled w req tru vl Hup) as [(Hn & _) | (fs' & Hf' & _ & -> & _)].
    { unfold attachments in Hn. rewrite Hf in Hn. lia. }
    rewrite Hf in Hf'. injection Hf' as <-.
    destruct (resolve_only_uploads w req tru _ Hup) as [Hins Hupl].
    exists b. split; [exact Hb|]. split.
    { unfold uploads. rewrite List.filter_app. fold (uploads tru). rewrite Hupl.
      cbn [List.filter is_upload]. now rewrite app_nil_r. }
    split; [now apply inserts_saved|]. split; [reflexivity|].
    split; [|eauto].
    intros result' Hok. rewrite Hdb in Hok. now injection Hok as <-.
  - destruct (resolve_fulfilled w req tru vl Hup) as [(Hn & _) | (fs' & Hf' & _ & -> & _)].
    { unfold attachments in Hn. rewrite Hf in Hn. lia. }
    rewrite Hf in Hf'. injection Hf' as <-.
    destruct (resolve_only_uploads w req tru _ Hup) as [Hins Hupl].
    exists b. split; [exact Hb|]. split.
    { unfold uploads. rewrite List.filter_app. fold (uploads tru). rewrite Hupl.
      unfold column_check. cbn [List.filter is_upload].
      destruct (visual_links_column_issue err); cbn [List.filter is_upload];
        now rewrite app_nil_r. }
    split; [now apply inserts_not_saved|]. split; [reflexivity|].
    split; [|discriminate].
    intros result' Hok. rewrite Hdb in Hok. discriminate.
Qed.

Lemma C1_visual_links_joined_in_order_witness :
  files Sample.illustrated_entry = Some [Sample.png; Sample.pdf]
  /\ 1 <= length [Sample.png; Sample.pdf]
  /\ Forall (fun file => mime_allowed file = true) [Sample.png; Sample.pdf]
  /\ (forall i, i < length [Sample.png; Sample.pdf] ->
        EvS3Settled i None
          ∈ fst (submit_entry_route (Sample.healthy None) Sample.illustrated_entry))
  /\ inserts (fst (submit_entry_route (Sample.healthy None) Sample.illustrated_entry))
       = [EvDbExecute query
            (Some (values_of Sample.jane_form
               (JStr "https://cca-entries.s3.us-east-1.amazonaws.com/ccapatrika/1730000000000-k3x90-poster.png,https://cca-entries.s3.us-east-1.amazonaws.com/ccapatrika/1730000000001-k3x91-deck.pdf")))].
Proof.
  assert (Hallowed : Forall (fun file => mime_allowed file = true) [Sample.png; Sample.pdf])
    by (repeat constructor).
  assert (Hsettled : forall i, i < length [Sample.png; Sample.pdf] ->
            EvS3Settled i None
              ∈ fst (submit_entry_route (Sample.healthy None) Sample.illustrated_entry)).
  { intros i Hi. apply list_elem_of_In.
    destruct i as [|[|i]]; [vm_compute; tauto | vm_compute; tauto | simpl in Hi; lia]. }
  split; [reflexivity|]. split; [simpl; lia|]. split; [exact Hallowed|].
  split; [exact Hsettled|].
  destruct (C1_visual_links_joined_in_order (Sample.healthy None)
              Sample.illustrated_entry [Sample.png; Sample.pdf]
              eq_refl (le_S 1 1 (le_n 1)) Hallowed Hsettled)
    as (_ & _ & b & Hb & _ & Hins & _).
  injection Hb as <-. exact Hins.
Defined.

(** C3: if the upload of any attachment is seen to fail, the batch as a
    whole fails with that error, no insert is issued and the answer is
    500 "Error processing submission."; and in every run an insert comes
    only after each of the request's uploads has settled. *)
Theorem C3_failed_upload_fails_request (w : World) (req : Request) :
  (forall i err,
     EvS3Settled i (Some err) ∈ fst (submit_entry_route w req) ->
     1 <= attachments req
     /\ resolve_attachments w req = (fst (submit_entry_route w req), inl err)
     /\ inserts (fst (submit_entry_route w req)) = []
     /\ snd (submit_entry_route w req) =
          res_json 500
            [ ("message", JStr "Error processing submission.");
              ("error", JStr (message err)) ])
  /\ (forall pre ev post,
        fst (submit_entry_route w req) = pre ++ ev :: post ->
        is_insert ev = true ->
        forall k, k < attachments req -> EvS3Settled k None ∈ pre).
Proof.
  destruct (route_cases w req) as [-> | ->].
  2:{ split; [intros i err Hin; inversion Hin|].
      intros pre ev post Heq. now destruct pre. }
  destruct (submit_entry_handler w req) as [tr response] eqn:Hh. simpl fst. simpl snd.
  assert (Hstage : forall tru vl i err,
            resolve_attachments w req = (tru, inr vl) ->
            EvS3Settled i (Some err) ∈ tru -> False).
  { intros tru vl i err Hup Hin.
    destruct (resolve_events w req tru _ _ Hup Hin)
      as [(? & ? & [=]) | (fs & j & file & Hf & Hfile & Heq)].
    injection Heq as <- Hrefused.
    destruct (resolve_fulfilled w req tru vl Hup) as [(_ & -> & _) | (fs' & Hf' & _ & _ & Hall)];
      [inversion Hin|].
    rewrite Hf in Hf'. injection Hf' as <-.
    specialize (Hall i (lookup_lt_Some _ _ _ Hfile)).
    pose proof (settlement_reports w req tru _ fs i file None Hup Hf Hfile Hall).
    congruence. }
  assert (Hbefore : forall tru vl values rest pre ev post,
            resolve_attachments w req = (tru, inr vl) ->
            tru ++ EvDbExecute query values :: rest = pre ++ ev :: post ->
            is_insert ev = true ->
            forall k, k < attachments req -> EvS3Settled k None ∈ pre).
  { intros tru vl values rest pre ev post Hup Heq Hev k Hk.
    destruct (resolve_only_uploads w req tru _ Hup) as [Hins _].
    destruct (insert_after tru pre post rest _ ev Hins Heq Hev) as [mid ->].
    apply elem_of_app. left.
    destruct (resolve_fulfilled w req tru vl Hup) as [(Hn & _) | (fs & Hf & _ & _ & Hall)];
      [lia|].
    unfold attachments in Hk. rewrite Hf in Hk. now apply Hall. }
  destruct (handler_answered w req tr response Hh) as
    [Hz | b Hb _ Hm | b tru err Hb _ _ Hup | b tru vl result Hb _ _ Hup Hdb
     | b tru vl err Hb _ _ Hup Hdb].
  - split; [intros i err Hin; inversion Hin|]. intros pre ev post Heq. now destruct pre.
  - split; [intros i err Hin; inversion Hin|]. intros pre ev post Heq. now destruct pre.
  - destruct (resolve_only_uploads w req tru _ Hup) as [Hins _]. split.
    + intros i err' Hin.
      destruct (resolve_rejected w req tru err Hup) as [_ Honly].
      rewrite (Honly i err' Hin) in *.
      split; [|now repeat split].
      destruct (attachments req) eqn:Hn; [|lia].
      rewrite (resolve_no_attachments w req Hn) in Hup. discriminate.
    + intros pre ev post Heq Hev. exfalso.
      apply (insert_seen tru ev); [rewrite Heq; apply elem_of_app; right; left | exact Hev | exact Hins].
  - split.
    + intros i err' Hin. exfalso. apply elem_of_app in Hin as [Hin|Hin].
      * exact (Hstage tru vl i err' Hup Hin).
      * apply list_elem_of_singleton in Hin. discriminate.
    + intros pre ev post Heq Hev. exact (Hbefore tru vl _ [] pre ev post Hup Heq Hev).
  - split.
    + intros i err' Hin. exfalso. apply elem_of_app in Hin as [Hin|Hin].
      * exact (Hstage tru vl i err' Hup Hin).
      * apply elem_of_cons in Hin as [[=]|Hin].
        unfold column_check in Hin. destruct (visual_links_column_issue err).
        -- apply list_elem_of_singleton in Hin. discriminate.
        -- inversion Hin.
    + intros pre ev post Heq Hev. exact (Hbefore tru vl _ _ pre ev post Hup Heq Hev).
Qed.

Lemma C3_failed_upload_fails_request_witness :
  EvS3Settled 1 (Some (new_Error "SlowDown"))
    ∈ fst (submit_entry_route (Sample.store_refuses None 1 "SlowDown")
             Sample.illustrated_entry)
  /\ inserts (fst (submit_entry_route (Sample.store_refuses None 1 "SlowDown")
                     Sample.illustrated_entry)) = []
  /\ snd (submit_entry_route (Sample.store_refuses None 1 "SlowDown")
            Sample.illustrated_entry) =
       res_json 500
         [ ("message", JStr "Error processing submission.");
           ("error", JStr "SlowDown") ].
Proof.
  assert (Hseen : EvS3Settled 1 (Some (new_Error "SlowDown"))
            ∈ fst (submit_entry_route (Sample.store_refuses None 1 "SlowDown")
                     Sample.illustrated_entry))
    by (apply list_elem_of_In; vm_compute; tauto).
  split; [exact Hseen|].
  destruct (proj1 (C3_failed_upload_fails_request
                     (Sample.store_refuses None 1 "SlowDown") Sample.illustrated_entry)
              1 (new_Error "SlowDown") Hseen) as (_ & _ & Hins & Hres).
  split; [exact Hins | exact Hres].
Defined.

(** A send that the store refuses is seen to fail whenever the request
    gets as far as the uploads. *)
Lemma refused_send_is_seen (w : World) (req : Request) b fs i file err0 :
  body req = Some b -> size b <> 0 -> missing_required_fields b = false ->
  files req = Some fs -> fs !! i = Some file ->
  s3_send w i (put_params w file (file_key w i file)) = Some err0 ->
  exists j err, EvS3Settled j (Some err) ∈ fst (submit_entry_handler w req).
Proof.
  intros Hb Hnz Hacc Hf Hi Hsend.
  destruct (refused_send_rejects w req fs i file err0 Hf Hi Hsend) as (tru & err & Hup).
  destruct (resolve_rejected w req tru err Hup) as [[j Hj] _].
  exists j, err.
  unfold submit_entry_handler, submit_entry. rewrite Hb.
  destruct (Nat.eqb_spec (size b) 0) as [|_]; [contradiction|].
  rewrite Hacc, Hup. exact Hj.
Qed.

(** ** Attachments of a type that is not allowed *)

(** C4, as amended: when some attachment has a type outside the allow-list
    the handler does not run: nothing is uploaded and nothing is inserted;
    the filter's error goes to the framework, which, the application
    having no error handler of its own, answers with status 500. *)
Theorem C4_disallowed_type_stops_request (w : World) (req : Request)
    (fs : list File) :
  files req = Some fs ->
  Exists (fun file => mime_allowed file = false) fs ->
  submit_entry_route w req = ([], default_error_handler invalid_file_type)
  /\ uploads (fst (submit_entry_route w req)) = []
  /\ inserts (fst (submit_entry_route w req)) = []
  /\ res_status (snd (submit_entry_route w req)) = 500%Z.
Proof.
  intros Hf Hbad. rewrite (route_refused w req fs Hf Hbad). repeat split.
Qed.

Lemma C4_disallowed_type_stops_request_witness :
  files Sample.gif_entry = Some [Sample.png; Sample.gif]
  /\ Exists (fun file => mime_allowed file = false) [Sample.png; Sample.gif]
  /\ submit_entry_route (Sample.healthy None) Sample.gif_entry
       = ([], default_error_handler invalid_file_type)
  /\ uploads (fst (submit_entry_route (Sample.healthy None) Sample.gif_entry)) = []
  /\ inserts (fst (submit_entry_route (Sample.healthy None) Sample.gif_entry)) = []
  /\ res_status (snd (submit_entry_route (Sample.healthy None) Sample.gif_entry)) = 500%Z.
Proof.
  assert (Hbad : Exists (fun file => mime_allowed file = false) [Sample.png; Sample.gif])
    by (constructor 2; constructor 1; reflexivity).
  split; [reflexivity|]. split; [exact Hbad|].
  exact (C4_disallowed_type_stops_request (Sample.healthy None) Sample.gif_entry
           [Sample.png; Sample.gif] eq_refl Hbad).
Defined.

(** C4, as stated, fails: a GIF among the attachments is answered with a
    server error, not a client error. *)
Lemma C4_counterexample :
  Exists (fun file => mime_allowed file = false) [Sample.png; Sample.gif]
  /\ files Sample.gif_entry = Some [Sample.png; Sample.gif]
  /\ res_status (snd (submit_entry_route (Sample.healthy None) Sample.gif_entry)) = 500%Z
  /\ ~ client_error (snd (submit_entry_route (Sample.healthy None) Sample.gif_entry)).
Proof.
  split; [constructor 2; constructor 1; reflexivity|].
  split; [reflexivity|]. split; [reflexivity|].
  unfold client_error. change (res_status _) with 500%Z. lia.
Qed.

(** ** The required-field check *)

(** C6, as amended: the check accepts a body exactly when [full_name] and
    [email_address] are both truthy; a string is truthy exactly when it
    is not empty, as received (nothing is trimmed); and a body with
    fields is rejected as missing a required field exactly when the
    check fails. *)
Theorem C6_validator_accepts_truthy (w : World) (req : Request)
    (b : gmap string JsValue) :
  body req = Some b -> size b <> 0 ->
  (missing_required_fields b = false <->
     truthy (field b "full_name") = true /\ truthy (field b "email_address") = true)
  /\ (forall s, truthy (JStr s) = true <-> s <> EmptyString)
  /\ (snd (submit_entry_handler w req) = rejected missing_required <->
        missing_required_fields b = true).
Proof.
  intros Hb Hnz. split; [|split].
  - unfold missing_required_fields.
    rewrite orb_false_iff, !negb_false_iff. reflexivity.
  - intros s. destruct s; simpl; split; congruence.
  - destruct (submit_entry_handler w req) as [tr response] eqn:Hh. simpl snd.
    destruct (handler_answered w req tr response Hh) as
      [Hz | b' Hb' _ Hm | b' tru err Hb' _ Hm _ | b' tru vl result Hb' _ Hm _ _
       | b' tru vl err Hb' _ Hm _ _];
      try (rewrite Hb in Hb'; injection Hb' as <-).
    + unfold received_fields in Hz. rewrite Hb in Hz. contradiction.
    + split; [intros _; exact Hm | reflexivity].
    + split; [discriminate | congruence].
    + split; [discriminate | congruence].
    + split; [discriminate | congruence].
Qed.

Lemma C6_validator_accepts_truthy_witness :
  body Sample.blank_entry = Some Sample.blank_name
  /\ size Sample.blank_name <> 0
  /\ missing_required_fields Sample.blank_name = false
  /\ snd (submit_entry_handler (Sample.healthy None) Sample.blank_entry)
       <> rejected missing_required.
Proof.
  assert (Hsize : size Sample.blank_name <> 0) by (vm_compute; discriminate).
  destruct (C6_validator_accepts_truthy (Sample.healthy None) Sample.blank_entry
              Sample.blank_name eq_refl Hsize) as (Hacc & _ & Hrej).
  assert (Hok : missing_required_fields Sample.blank_name = false)
    by (apply Hacc; split; reflexivity).
  split; [reflexivity|]. split; [exact Hsize|]. split; [exact Hok|].
  intros Hr. apply Hrej in Hr. rewrite Hok in Hr. discriminate.
Defined.

(** C6, as stated, fails: a name of three spaces is empty after trimming,
    yet the check accepts it and the entry is saved. *)
Lemma C6_counterexample :
  Spec.trim "   " = EmptyString
  /\ Spec.validator_accepts Sample.blank_name = false
  /\ missing_required_fields Sample.blank_name = false
  /\ snd (submit_entry_route (Sample.healthy None) Sample.blank_entry)
       = res_json 200
           [ ("message", JStr "Entry successfully submitted!");
             ("visual_links", JNull);
             ("entry_id", JNum 7) ].
Proof. repeat split; vm_compute; reflexivity. Qed.

(** ** The insert *)

(** The statement names the columns of [insert_columns], in that order,
    and has one placeholder for each. *)
Lemma query_lists_columns :
  query =
    String "010" "        INSERT INTO submissions (" +:+ String "010" "          "
    +:+ String.concat ("," +:+ String "010" "          ") insert_columns
    +:+ String "010" "        )" +:+ String "010" "        VALUES ("
    +:+ String.concat ", " (List.map (fun _ => "?") insert_columns)
    +:+ ")" +:+ String "010" "      ".
Proof. vm_compute. reflexivity. Qed.

(** The columns written are those of the table other than the generated key. *)
Lemma insert_columns_match_table : insert_columns = Schema.supplied_columns.
Proof. reflexivity. Qed.

(** The bound values follow the column list: the field of that name, or
    the uploader's result for [visual_links]. *)
Lemma values_follow_columns b visual_links :
  values_of b visual_links =
    List.map (fun column => if String.eqb column "visual_links"
                            then visual_links else field b column)
      insert_columns.
Proof. reflexivity. Qed.

(** No run issues the insert more than once. *)
Lemma insert_at_most_once (w : World) (req : Request) :
  inserts (fst (submit_entry_route w req)) = [] \/
  exists b visual_links,
    body req = Some b /\
    inserts (fst (submit_entry_route w req))
      = [EvDbExecute query (Some (values_of b visual_links))].
Proof.
  destruct (route_cases w req) as [-> | ->]; [|now left].
  destruct (submit_entry_handler w req) as [tr response] eqn:Hh. simpl fst.
  destruct (handler_answered w req tr response Hh) as
    [Hz | b Hb _ Hm | b tru err Hb _ _ Hup | b tru vl result Hb _ _ Hup Hdb
     | b tru vl err Hb _ _ Hup Hdb].
  - now left.
  - now left.
  - left. now destruct (resolve_only_uploads w req tru _ Hup).
  - right. exists b, vl. split; [exact Hb|].
    apply inserts_saved. now destruct (resolve_only_uploads w req tru _ Hup).
  - right. exists b, vl. split; [exact Hb|].
    apply inserts_not_saved. now destruct (resolve_only_uploads w req tru _ Hup).
Qed.

(** A field that the body does not have is bound as [undefined]. *)
Lemma absent_field_bound_undefined b visual_links column :
  In column insert_columns -> column <> "visual_links" ->
  b !! column = None ->
  parameter_of column (values_of b visual_links) = Some JUndefined
  /\ existsb is_undefined (values_of b visual_links) = true.
Proof.
  intros Hin Hne Hnone.
  assert (Hfield : field b column = JUndefined) by (unfold field; now rewrite Hnone).
  unfold insert_columns in Hin. simpl in Hin.
  repeat (destruct Hin as [<- | Hin];
          [ first
              [ now destruct Hne
              | split;
                [ unfold parameter_of, values_of; cbn; now rewrite ?Hfield
                | unfold values_of; cbn [existsb]; rewrite Hfield;
                  cbn [is_undefined orb]; now rewrite ?orb_true_r ] ]
          | ]).
  contradiction.
Qed.

Lemma mysql2_rejects_undefined w server :
  db_execute w = Mysql2.execute server -> rejects_undefined w.
Proof.
  intros Hdriver sql vs Hundef. exists Mysql2.undefined_parameter.
  rewrite Hdriver. unfold Mysql2.execute. now rewrite Hundef.
Qed.

(** Behind a driver that refuses [undefined], a request that leaves out an
    optional field is never saved: whatever else happens, the answer is 500. *)
Lemma absent_optional_field_not_saved (w : World) (req : Request)
    (b : gmap string JsValue) (column : string) :
  rejects_undefined w ->
  body req = Some b -> size b <> 0 ->
  In column insert_columns -> column <> "visual_links" ->
  b !! column = None ->
  missing_required_fields b = false ->
  res_status (snd (submit_entry_route w req)) = 500%Z.
Proof.
  intros Hdriver Hb Hnz Hin Hne Hnone Hacc.
  destruct (route_cases w req) as [-> | ->]; [|reflexivity].
  destruct (submit_entry_handler w req) as [tr response] eqn:Hh. simpl snd.
  destruct (handler_answered w req tr response Hh) as
    [Hz | b' Hb' _ Hm | b' tru err Hb' _ _ Hup | b' tru vl result Hb' _ _ Hup Hdb
     | b' tru vl err Hb' _ _ Hup Hdb];
    try (rewrite Hb in Hb'; injection Hb' as <-); try reflexivity.
  - unfold received_fields in Hz. rewrite Hb in Hz. contradiction.
  - congruence.
  - destruct (absent_field_bound_undefined b vl column Hin Hne Hnone) as [_ Hundef].
    destruct (Hdriver query _ Hundef) as [err Herr]. congruence.
Qed.

(** C7, at the failing input: a body with only the two required fields and
    no attachment, sent to a database that would store anything.  The
    optional fields are bound as [undefined], mysql2's [execute] refuses
    them, and the answer is 500 "Error saving the entry.": no row with
    null or empty values is written. *)
Theorem C7_absent_optional_field_not_written :
  parameter_of "contact_number" (values_of Sample.jane JNull) = Some JUndefined
  /\ db_execute (Sample.healthy None) query (Some (values_of Sample.jane JNull))
       = DbErr Mysql2.undefined_parameter
  /\ submit_entry_route (Sample.healthy None) Sample.short_entry =
       ([EvDbExecute query (Some (values_of Sample.jane JNull))],
        res_json 500
          [ ("message", JStr "Error saving the entry.");
            ("error", JStr "Database error occurred") ])
  /\ submit_entry_route (Sample.healthy (Some "development")) Sample.short_entry =
       ([EvDbExecute query (Some (values_of Sample.jane JNull))],
        res_json 500
          [ ("message", JStr "Error saving the entry.");
            ("error", JStr "Bind parameters must not contain undefined. To pass SQL NULL specify JS null") ]).
Proof. repeat split; vm_compute; reflexivity. Qed.

(** ** Detail in failure answers *)

Lemma development_iff (w : World) :
  development w = true <-> process_env (env w) "NODE_ENV" = Some "development".
Proof.
  unfold development. destruct (process_env (env w) "NODE_ENV") as [mode|].
  - destruct (String.eqb_spec mode "development") as [->|Hne];
      split; congruence.
  - split; discriminate.
Qed.

Lemma insert_failure_answer (w : World) (req : Request) b tr visual_links err :
  body req = Some b -> size b <> 0 -> missing_required_fields b = false ->
  resolve_attachments w req = (tr, inr visual_links) ->
  db_execute w query (Some (values_of b visual_links)) = DbErr err ->
  snd (submit_entry_handler w req) = not_saved w err.
Proof.
  intros Hb Hnz Hacc Hup Hdb. unfold submit_entry_handler, submit_entry.
  rewrite Hb. destruct (Nat.eqb_spec (size b) 0) as [|_]; [contradiction|].
  rewrite Hacc, Hup. unfold Run.bind. rewrite insert_entry_run, Hdb. reflexivity.
Qed.

(** C8, as amended: when the insert fails, the answer is 500 "Error saving
    the entry." and its [error] is the exception's message exactly when
    NODE_ENV is "development"; in every other mode, production included,
    it is the fixed text "Database error occurred", so that two runs in
    which the insert fails give the same answer whatever the errors. *)
Theorem C8_store_failure_detail_gated (w w' : World) (req : Request)
    (b : gmap string JsValue) (tr tr' : Trace) (visual_links visual_links' : JsValue)
    (err err' : JsError) :
  body req = Some b -> size b <> 0 -> missing_required_fields b = false ->
  resolve_attachments w req = (tr, inr visual_links) ->
  db_execute w query (Some (values_of b visual_links)) = DbErr err ->
  resolve_attachments w' req = (tr', inr visual_links') ->
  db_execute w' query (Some (values_of b visual_links')) = DbErr err' ->
  (process_env (env w) "NODE_ENV" = Some "development" ->
     snd (submit_entry_handler w req) =
       res_json 500
         [ ("message", JStr "Error saving the entry.");
           ("error", JStr (message err)) ])
  /\ (process_env (env w) "NODE_ENV" <> Some "development" ->
        snd (submit_entry_handler w req) =
          res_json 500
            [ ("message", JStr "Error saving the entry.");
              ("error", JStr "Database error occurred") ])
  /\ (process_env (env w) "NODE_ENV" <> Some "development" ->
      process_env (env w') "NODE_ENV" <> Some "development" ->
        snd (submit_entry_handler w req) = snd (submit_entry_handler w' req)).
Proof.
  intros Hb Hnz Hacc Hup Hdb Hup' Hdb'.
  rewrite (insert_failure_answer w req b tr visual_links err Hb Hnz Hacc Hup Hdb).
  rewrite (insert_failure_answer w' req b tr' visual_links' err' Hb Hnz Hacc Hup' Hdb').
  unfold not_saved. split; [|split].
  - intros Hdev. apply development_iff in Hdev. now rewrite Hdev.
  - intros Hdev. destruct (development w) eqn:Hd; [|reflexivity].
    apply development_iff in Hd. contradiction.
  - intros Hdev Hdev'.
    destruct (development w) eqn:Hd; [apply development_iff in Hd; contradiction|].
    destruct (development w') eqn:Hd'; [apply development_iff in Hd'; contradiction|].
    reflexivity.
Qed.

Lemma C8_store_failure_detail_gated_witness :
  body Sample.plain_entry = Some Sample.jane_form
  /\ size Sample.jane_form <> 0
  /\ missing_required_fields Sample.jane_form = false
  /\ resolve_attachments
       (Sample.database_fails (Some "production") (new_Error "connect ETIMEDOUT 10.0.0.5"))
       Sample.plain_entry = ([], inr JNull)
  /\ db_execute
       (Sample.database_fails (Some "production") (new_Error "connect ETIMEDOUT 10.0.0.5"))
       query (Some (values_of Sample.jane_form JNull))
       = DbErr (new_Error "connect ETIMEDOUT 10.0.0.5")
  /\ resolve_attachments
       (Sample.database_fails (Some "production") (new_Error "Access denied for user cca"))
       Sample.plain_entry = ([], inr JNull)
  /\ db_execute
       (Sample.database_fails (Some "production") (new_Error "Access denied for user cca"))
       query (Some (values_of Sample.jane_form JNull))
       = DbErr (new_Error "Access denied for user cca")
  /\ snd (submit_entry_handler
            (Sample.database_fails (Some "production") (new_Error "connect ETIMEDOUT 10.0.0.5"))
            Sample.plain_entry)
       = snd (submit_entry_handler
                (Sample.database_fails (Some "production") (new_Error "Access denied for user cca"))
                Sample.plain_entry).
Proof.
  assert (Hsize : size Sample.jane_form <> 0) by (vm_compute; discriminate).
  assert (Hmode : forall err,
            process_env (env (Sample.database_fails (Some "production") err)) "NODE_ENV"
              <> Some "development")
    by (intros err; vm_compute; discriminate).
  assert (Hdb : forall err,
            db_execute (Sample.database_fails (Some "production") err)
              query (Some (values_of Sample.jane_form JNull)) = DbErr err)
    by (intros err; vm_compute; reflexivity).
  split; [reflexivity|]. split; [exact Hsize|]. split; [reflexivity|].
  split; [reflexivity|]. split; [apply Hdb|]. split; [reflexivity|]. split; [apply Hdb|].
  exact (proj2 (proj2
    (C8_store_failure_detail_gated
       (Sample.database_fails (Some "production") (new_Error "connect ETIMEDOUT 10.0.0.5"))
       (Sample.database_fails (Some "production") (new_Error "Access denied for user cca"))
       Sample.plain_entry Sample.jane_form [] [] JNull JNull
       (new_Error "connect ETIMEDOUT 10.0.0.5") (new_Error "Access denied for user cca")
       eq_refl Hsize eq_refl eq_refl (Hdb _) eq_refl (Hdb _))) (Hmode _) (Hmode _)).
Defined.

(** C8, as stated, fails twice over.  In production mode a failed upload is
    answered with the exception's message, so two runs that differ only in
    that message differ in their answers; and in a mode that is neither
    production nor development a failed insert is answered without it. *)
Lemma C8_counterexample :
  Spec.production (Sample.store_refuses (Some "production") 0 "AccessDenied: key AKIA1")
  /\ snd (submit_entry_route
            (Sample.store_refuses (Some "production") 0 "AccessDenied: key AKIA1")
            Sample.illustrated_entry)
       = res_json 500
           [ ("message", JStr "Error processing submission.");
             ("error", JStr "AccessDenied: key AKIA1") ]
  /\ snd (submit_entry_route
            (Sample.store_refuses (Some "production") 0 "AccessDenied: key AKIA1")
            Sample.illustrated_entry)
       <> snd (submit_entry_route
                 (Sample.store_refuses (Some "production") 0 "AccessDenied: key AKIA2")
                 Sample.illustrated_entry)
  /\ ~ Spec.production (Sample.database_fails (Some "test") (new_Error "connect ETIMEDOUT"))
  /\ snd (submit_entry_route
            (Sample.database_fails (Some "test") (new_Error "connect ETIMEDOUT"))
            Sample.plain_entry)
       = res_json 500
           [ ("message", JStr "Error saving the entry.");
             ("error", JStr "Database error occurred") ].
Proof.
  split; [vm_compute; reflexivity|].
  split; [vm_compute; reflexivity|].
  split; [vm_compute; discriminate|].
  split; [vm_compute; discriminate|].
  vm_compute; reflexivity.
Qed.

(** ** Start-up *)

Lemma missingVars_spec (env : gmap string string) (v : string) :
  In v (Startup.missingVars env) <->
  In v Startup.requiredEnvVars /\ env_missing env v = true.
Proof. unfold Startup.missingVars. apply filter_In. Qed.

Lemma missing_line_named (missing : list string) (v : string) :
  In (Startup.missing_line v) (Startup.diagnostics missing) <-> In v missing.
Proof.
  unfold Startup.diagnostics. split.
  - intros Hin. simpl in Hin. destruct Hin as [Hin|Hin]; [discriminate|].
    apply in_app_or in Hin as [Hin|Hin].
    + apply in_map_iff in Hin as (u & Heq & Hu).
      unfold Startup.missing_line in Heq.
      apply (String.app_inj "   - ") in Heq. now subst.
    + simpl in Hin. destruct Hin as [Hin|[Hin|[Hin|[]]]]; discriminate.
  - intros Hin. apply in_or_app. right. apply in_or_app. left. now apply in_map.
Qed.

(** C9, as amended: the seven settings of [requiredEnvVars] are checked at
    start-up, and if one of them is unset or empty the process exits with
    code 1 before listening, after printing a list that names exactly the
    missing ones; the region, the two ports and the mode are not checked:
    with the seven set the server listens, and those that are absent take
    their defaults. *)
Theorem C9_required_settings_validated (env : gmap string string) :
  ((exists v, In v Startup.requiredEnvVars /\ env_missing env v = true) ->
     Startup.startup env
       = Startup.Exit 1 (Startup.diagnostics (Startup.missingVars env))
     /\ (forall v,
           In (Startup.missing_line v)
              (Startup.diagnostics (Startup.missingVars env)) <->
           In v Startup.requiredEnvVars /\ env_missing env v = true))
  /\ ((forall v, In v Startup.requiredEnvVars -> env_missing env v = false) ->
        Startup.startup env = Startup.Listening (Startup.read_config env)
        /\ (env_missing env "AWS_REGION" = true ->
              Startup.cfg_s3_region (Startup.read_config env) = "ap-south-1")
        /\ (env_missing env "DB_PORT" = true ->
              Startup.cfg_db_port (Startup.read_config env) = inr 3306%Z)
        /\ (env_missing env "PORT" = true ->
              Startup.cfg_port (Startup.read_config env) = inr 3001%Z)).
Proof.
  split.
  - intros (v & Hv & Hmiss).
    assert (Hin : In v (Startup.missingVars env)) by (now apply missingVars_spec).
    split.
    + unfold Startup.startup. destruct (Startup.missingVars env); [destruct Hin | reflexivity].
    + intros u. rewrite missing_line_named. apply missingVars_spec.
  - intros Hset.
    assert (Hnone : Startup.missingVars env = []).
    { destruct (Startup.missingVars env) as [|v rest] eqn:Hm; [reflexivity|].
      assert (Hin : In v (Startup.missingVars env)) by (rewrite Hm; now left).
      apply missingVars_spec in Hin as [Hv Hmiss]. rewrite (Hset v Hv) in Hmiss. discriminate. }
    split; [unfold Startup.startup; now rewrite Hnone|].
    unfold Startup.read_config, Startup.env_or_num, env_or, env_missing. simpl.
    repeat split; intros Hmiss.
    + destruct (process_env env "AWS_REGION"); [now rewrite Hmiss | reflexivity].
    + destruct (process_env env "DB_PORT"); [now rewrite Hmiss | reflexivity].
    + destruct (process_env env "PORT"); [now rewrite Hmiss | reflexivity].
Qed.

Lemma C9_required_settings_validated_witness :
  (exists v, In v Startup.requiredEnvVars
             /\ env_missing (delete "DB_PASS" Sample.required_env) v = true)
  /\ Startup.startup (delete "DB_PASS" Sample.required_env)
       = Startup.Exit 1
           (Startup.diagnostics (Startup.missingVars (delete "DB_PASS" Sample.required_env)))
  /\ In "   - DB_PASS"
        (Startup.diagnostics (Startup.missingVars (delete "DB_PASS" Sample.required_env))).
Proof.
  assert (Hmiss : exists v, In v Startup.requiredEnvVars
                    /\ env_missing (delete "DB_PASS" Sample.required_env) v = true).
  { exists "DB_PASS". split; [simpl; tauto | vm_compute; reflexivity]. }
  split; [exact Hmiss|].
  destruct (proj1 (C9_required_settings_validated (delete "DB_PASS" Sample.required_env))
              Hmiss) as [Hexit Hnamed].
  split; [exact Hexit|].
  apply (Hnamed "DB_PASS"). split; [simpl; tauto | vm_compute; reflexivity].
Defined.

(** C9, as stated, fails: the region, the database port, the listening port
    and the mode belong to the configuration surface and are all absent,
    yet start-up goes through and the server listens. *)
Lemma C9_counterexample :
  Forall (fun v => In v Spec.configuration_surface
                   /\ env_missing Sample.required_env v = true)
    [ "AWS_REGION"; "DB_PORT"; "PORT"; "NODE_ENV" ]
  /\ Startup.startup Sample.required_env
       = Startup.Listening (Startup.read_config Sample.required_env)
  /\ Startup.cfg_port (Startup.read_config Sample.required_env) = inr 3001%Z.
Proof.
  split.
  - repeat constructor; simpl; tauto.
  - split; vm_compute; reflexivity.
Qed.

(** * Further properties of the code *)

(** ** The file filter *)

Lemma upload_array_passes (req req' : Request) :
  upload_array req = inr req' -> req' = req.
Proof.
  unfold upload_array. destruct req as [bd [fs|]]; simpl; [|now intros [= <-]].
  destruct (allowed_or_refused fs) as [Hall|Hbad].
  - rewrite (accept_allowed fs Hall). now intros [= <-].
  - rewrite (accept_refused fs Hbad). discriminate.
Qed.


(** ** What an answer says about the run *)


(** X3: a row is written only for a named sender: whenever the insert
    appears in a run, the body has fields, [full_name] and [email_address]
    are truthy, and these very values are the ones bound to their columns. *)
Theorem insert_requires_identity (w : World) (req : Request) (ev : Event) :
  ev ∈ fst (submit_entry_route w req) -> is_insert ev = true ->
  exists b visual_links,
    body req = Some b
    /\ size b <> 0
    /\ truthy (field b "full_name") = true
    /\ truthy (field b "email_address") = true
    /\ ev = EvDbExecute query (Some (values_of b visual_links))
    /\ parameter_of "full_name" (values_of b visual_links)
         = Some (field b "full_name")
    /\ parameter_of "email_address" (values_of b visual_links)
         = Some (field b "email_address").
Proof.
  intros Hin Hev.
  destruct (route_cases w req) as [Hr | Hr]; rewrite Hr in Hin;
    [|inversion Hin].
  destruct (submit_entry_handler w req) as [tr response] eqn:Hh. simpl fst in Hin.
  assert (Hident : forall b, missing_required_fields b = false ->
            truthy (field b "full_name") = true /\ truthy (field b "email_address") = true).
  { intros b Hm. unfold missing_required_fields in Hm.
    apply orb_false_iff in Hm as [Hn He]. now rewrite !negb_false_iff in Hn, He. }
  assert (Hfound : forall b tru vl rest,
            body req = Some b -> size b <> 0 -> missing_required_fields b = false ->
            inserts tru = [] ->
            inserts rest = [] ->
            ev ∈ tru ++ EvDbExecute query (Some (values_of b vl)) :: rest ->
            exists b visual_links,
              body req = Some b /\ size b <> 0
              /\ truthy (field b "full_name") = true
              /\ truthy (field b "email_address") = true
              /\ ev = EvDbExecute query (Some (values_of b visual_links))
              /\ parameter_of "full_name" (values_of b visual_links)
                   = Some (field b "full_name")
              /\ parameter_of "email_address" (values_of b visual_links)
                   = Some (field b "email_address")).
  { intros b tru vl rest Hb Hnz Hm Htru Hrest Hmem.
    destruct (Hident b Hm) as [Hn He].
    exists b, vl. repeat split; try assumption.
    apply elem_of_app in Hmem as [Hmem|Hmem];
      [exfalso; exact (insert_seen tru ev Hmem Hev Htru)|].
    apply elem_of_cons in Hmem as [-> | Hmem]; [reflexivity|].
    exfalso. exact (insert_seen rest ev Hmem Hev Hrest). }
  destruct (handler_answered w req tr response Hh) as
    [Hz | b Hb Hnz Hm | b tru err Hb Hnz Hm Hup | b tru vl result Hb Hnz Hm Hup Hdb
     | b tru vl err Hb Hnz Hm Hup Hdb].
  - inversion Hin.
  - inversion Hin.
  - exfalso. destruct (resolve_only_uploads w req tru _ Hup) as [Hins _].
    exact (insert_seen tru ev Hin Hev Hins).
  - destruct (resolve_only_uploads w req tru _ Hup) as [Hins _].
    exact (Hfound b tru vl [] Hb Hnz Hm Hins eq_refl Hin).
  - destruct (resolve_only_uploads w req tru _ Hup) as [Hins _].
    exact (Hfound b tru vl _ Hb Hnz Hm Hins (column_check_no_insert err) Hin).
Qed.

Lemma insert_requires_identity_witness :
  EvDbExecute query (Some (values_of Sample.jane_form JNull))
    ∈ fst (submit_entry_route (Sample.healthy None) Sample.plain_entry)
  /\ is_insert (EvDbExecute query (Some (values_of Sample.jane_form JNull))) = true
  /\ exists b visual_links,
       body Sample.plain_entry = Some b
       /\ size b <> 0
       /\ truthy (field b "full_name") = true
       /\ truthy (field b "email_address") = true
       /\ EvDbExecute query (Some (values_of Sample.jane_form JNull))
            = EvDbExecute query (Some (values_of b visual_links))
       /\ parameter_of "full_name" (values_of b visual_links)
            = Some (field b "full_name")
       /\ parameter_of "email_address" (values_of b visual_links)
            = Some (field b "email_address").
Proof.
  assert (Hin : EvDbExecute query (Some (values_of Sample.jane_form JNull))
                  ∈ fst (submit_entry_route (Sample.healthy None) Sample.plain_entry)).
  { replace (fst (submit_entry_route (Sample.healthy None) Sample.plain_entry))
      with [EvDbExecute query (Some (values_of Sample.jane_form JNull))]
      by (vm_compute; reflexivity).
    left. }
  split; [exact Hin|]. split; [apply is_insert_query|].
  exact (insert_requires_identity (Sample.healthy None) Sample.plain_entry _ Hin
           (is_insert_query _)).
Defined.

(** ** What the handler reads *)

Lemma form_field_agree (b b' : gmap string JsValue) :
  (forall name, In name form_fields -> b !! name = b' !! name) ->
  forall name, In name form_fields -> field b name = field b' name.
Proof. intros Hagree name Hin. unfold field. now rewrite (Hagree name Hin). Qed.

Lemma values_agree (b b' : gmap string JsValue) visual_links :
  (forall name, In name form_fields -> b !! name = b' !! name) ->
  values_of b visual_links = values_of b' visual_links.
Proof.
  intros Hagree. pose proof (form_field_agree b b' Hagree) as Hf.
  unfold values_of.
  repeat match goal with
         | |- context [field b ?name] =>
             rewrite (Hf name) by (vm_compute; tauto)
         end.
  reflexivity.
Qed.

(** X4: the handler reads the twenty-four form fields and nothing else: two
    bodies with fields that agree on them are treated alike, calls and
    answer.  A [visual_links] sent by the client, or any field the form
    does not have, changes nothing. *)
Theorem unread_fields_ignored (w : World) (b b' : gmap string JsValue)
    (fs : option (list File)) :
  size b <> 0 -> size b' <> 0 ->
  (forall name, In name form_fields -> b !! name = b' !! name) ->
  submit_entry_handler w {| body := Some b; files := fs |}
    = submit_entry_handler w {| body := Some b'; files := fs |}.
Proof.
  intros Hnz Hnz' Hagree.
  pose proof (form_field_agree b b' Hagree) as Hf.
  unfold submit_entry_handler, submit_entry. cbn [body].
  destruct (Nat.eqb_spec (size b) 0) as [|_]; [contradiction|].
  destruct (Nat.eqb_spec (size b') 0) as [|_]; [contradiction|].
  assert (Hm : missing_required_fields b = missing_required_fields b').
  { unfold missing_required_fields.
    now rewrite (Hf "full_name"), (Hf "email_address") by (vm_compute; tauto). }
  rewrite Hm. destruct (missing_required_fields b'); [reflexivity|].
  change (resolve_attachments w {| body := Some b; files := fs |})
    with (resolve_attachments w {| body := Some b'; files := fs |}).
  destruct (resolve_attachments w _) as [tr [err|vl]]; [reflexivity|].
  unfold Run.bind. rewrite !insert_entry_run, (values_agree b b' vl Hagree).
  reflexivity.
Qed.

Lemma unread_fields_ignored_witness :
  size Sample.jane_form <> 0
  /\ size (<["visual_links" := JStr "https://evil.example/x.png"]> Sample.jane_form) <> 0
  /\ (forall name, In name form_fields ->
        Sample.jane_form !! name
          = <["visual_links" := JStr "https://evil.example/x.png"]> Sample.jane_form !! name)
  /\ submit_entry_handler (Sample.healthy None)
       {| body := Some Sample.jane_form; files := Some [Sample.png] |}
     = submit_entry_handler (Sample.healthy None)
         {| body := Some (<["visual_links" := JStr "https://evil.example/x.png"]>
                            Sample.jane_form);
            files := Some [Sample.png] |}.
Proof.
  assert (H1 : size Sample.jane_form <> 0) by (vm_compute; discriminate).
  assert (H2 : size (<["visual_links" := JStr "https://evil.example/x.png"]>
                       Sample.jane_form) <> 0) by (vm_compute; discriminate).
  assert (H3 : forall name, In name form_fields ->
            Sample.jane_form !! name
              = <["visual_links" := JStr "https://evil.example/x.png"]>
                  Sample.jane_form !! name).
  { intros name Hin. rewrite lookup_insert_ne; [reflexivity|].
    intros <-. vm_compute in Hin. intuition discriminate. }
  split; [exact H1|]. split; [exact H2|]. split; [exact H3|].
  exact (unread_fields_ignored (Sample.healthy None) _ _ _ H1 H2 H3).
Defined.

(** ** The column check *)

Lemma prefix_spec (a s : string) :
  String.prefix a s = true <-> exists rest, s = a +:+ rest.
Proof.
  revert s. induction a as [|c a IH]; intros s.
  - split; [intros _; now exists s | intros _; now destruct s].
  - destruct s as [|d s]; simpl; [split; [discriminate | intros [rest [=]]]|].
    destruct (Ascii.ascii_dec c d) as [<-|Hne].
    + rewrite IH. split; intros [rest Hrest]; exists rest; [now rewrite Hrest | now injection Hrest].
    + split; [discriminate | intros [rest [= -> _]]; contradiction].
Qed.

(** [includes] finds exactly the substrings. *)
Lemma includes_spec (needle hay : string) :
  includes needle hay = true <->
  exists before after, hay = before +:+ needle +:+ after.
Proof.
  induction hay as [|c hay IH].
  - change (includes needle EmptyString)
      with (String.prefix needle EmptyString || false).
    rewrite orb_false_r, prefix_spec. split.
    + intros [rest Hrest]. now exists EmptyString, rest.
    + intros ([|d before] & after & Heq); simpl in Heq; [now exists after | discriminate].
  - change (includes needle (String c hay))
      with (String.prefix needle (String c hay) || includes needle hay).
    rewrite orb_true_iff, prefix_spec, IH. split.
    + intros [[rest Hrest] | (before & after & ->)].
      * now exists EmptyString, rest.
      * now exists (String c before), after.
    + intros ([|d before] & after & Heq); simpl in Heq.
      * left. now exists after.
      * injection Heq as <- ->. right. now exists before, after.
Qed.

(** X5: the handler asks the database about the [visual_links] column
    exactly when the insert failed with the code ER_BAD_FIELD_ERROR and an
    SQL message that mentions [visual_links]; the question comes after the
    insert, once, and the answer to the client is then 500 "Error saving
    the entry.". *)
Theorem column_check_when (w : World) (req : Request) :
  (exists ev, ev ∈ fst (submit_entry_handler w req) /\ is_column_check ev = true)
  <->
  (exists b tr visual_links err before after,
     body req = Some b
     /\ resolve_attachments w req = (tr, inr visual_links)
     /\ db_execute w query (Some (values_of b visual_links)) = DbErr err
     /\ code err = Some "ER_BAD_FIELD_ERROR"
     /\ sqlMessage err = Some (before +:+ "visual_links" +:+ after)
     /\ submit_entry_handler w req =
          (tr ++ [EvDbExecute query (Some (values_of b visual_links));
                  EvDbExecute show_columns None],
           not_saved w err)).
Proof.
  assert (Hissue : forall err,
            visual_links_column_issue err = true <->
            code err = Some "ER_BAD_FIELD_ERROR" /\
            exists before after,
              sqlMessage err = Some (before +:+ "visual_links" +:+ after)).
  { intros err. unfold visual_links_column_issue. rewrite andb_true_iff.
    destruct (code err) as [c|], (sqlMessage err) as [m|]; split;
      try (intros [? ?]; discriminate);
      try (intros [? (? & ? & ?)]; discriminate).
    - intros [Hc Hm]. apply String.eqb_eq in Hc as ->.
      apply andb_true_iff in Hm as [_ Hm]. apply includes_spec in Hm as (x & y & ->).
      split; [reflexivity | eauto].
    - intros [[= ->] (x & y & [= ->])]. split; [reflexivity|].
      apply andb_true_iff. split.
      + destruct x; reflexivity.
      + apply includes_spec. eauto. }
  assert (Hnot : forall tru r,
            resolve_attachments w req = (tru, r) ->
            forall ev, ev ∈ tru -> is_column_check ev = true -> False).
  { intros tru r Hup ev Hin Hev.
    destruct (resolve_events w req tru r ev Hup Hin)
      as [(i & params & ->) | (fs & i & file & _ & _ & ->)]; discriminate. }
  destruct (submit_entry_handler w req) as [trh response] eqn:Hh. simpl fst.
  destruct (handler_answered w req trh response Hh) as
    [Hz | b Hb _ Hm | b tru err Hb _ _ Hup | b tru vl result Hb _ _ Hup Hdb
     | b tru vl err Hb _ _ Hup Hdb].
  - split; [intros (ev & Hin & _); inversion Hin|].
    intros (b & tr & vl & err & x & y & _ & _ & _ & _ & _ & [=]).
  - split; [intros (ev & Hin & _); inversion Hin|].
    intros (b' & tr & vl & err & x & y & _ & _ & _ & _ & _ & [=]).
  - split.
    + intros (ev & Hin & Hev). exfalso. exact (Hnot tru _ Hup ev Hin Hev).
    + intros (b' & tr & vl & err' & x & y & _ & Hup' & _). congruence.
  - split.
    + intros (ev & Hin & Hev). exfalso. apply elem_of_app in Hin as [Hin|Hin].
      * exact (Hnot tru _ Hup ev Hin Hev).
      * apply list_elem_of_singleton in Hin as ->. discriminate.
    + intros (b' & tr & vl' & err' & x & y & Hb' & Hup' & Hdb' & _).
      rewrite Hb in Hb'. injection Hb' as <-. rewrite Hup in Hup'.
      injection Hup' as <- <-. congruence.
  - unfold column_check. destruct (visual_links_column_issue err) eqn:Hi.
    + apply Hissue in Hi as (Hc & x & y & Hm). split; intros _.
      * exists b, tru, vl, err, x, y. repeat split; assumption.
      * exists (EvDbExecute show_columns None). split; [|reflexivity].
        apply elem_of_app. right. right. left.
    + split.
      * intros (ev & Hin & Hev). exfalso. apply elem_of_app in Hin as [Hin|Hin].
        -- exact (Hnot tru _ Hup ev Hin Hev).
        -- apply list_elem_of_singleton in Hin as ->. discriminate.
      * intros (b' & tr & vl' & err' & x & y & Hb' & Hup' & Hdb' & Hc & Hm & _).
        rewrite Hb in Hb'. injection Hb' as <-. rewrite Hup in Hup'.
        injection Hup' as <- <-. rewrite Hdb in Hdb'. injection Hdb' as <-.
        assert (visual_links_column_issue err = true) by (apply Hissue; eauto).
        congruence.
Qed.

(** X6: only the database's answer to the insert counts: a world whose
    database answers the insert in the same way, and anything else (the
    column check included) in any other way, gives the same calls and the
    same answer. *)
Theorem only_the_insert_counts (w : World)
    (db : string -> option (list JsValue) -> DbResult) (req : Request) :
  (forall values, db query (Some values) = db_execute w query (Some values)) ->
  submit_entry_handler (with_database w db) req = submit_entry_handler w req.
Proof.
  intros Hsame. unfold submit_entry_handler, submit_entry.
  destruct (body req) as [b|]; [|reflexivity].
  destruct (size b =? 0)%nat; [reflexivity|].
  destruct (missing_required_fields b); [reflexivity|].
  change (resolve_attachments (with_database w db) req)
    with (resolve_attachments w req).
  destruct (resolve_attachments w req) as [tr [err|vl]]; [reflexivity|].
  unfold Run.bind. rewrite !insert_entry_run.
  change (db_execute (with_database w db)) with db. rewrite Hsame.
  reflexivity.
Qed.

Lemma only_the_insert_counts_witness :
  (forall values,
     Mysql2.execute (fun sql _ => if String.eqb sql query
                                  then DbOk {| insertId := 7 |}
                                  else DbErr (new_Error "unknown statement"))
       query (Some values)
     = db_execute (Sample.healthy None) query (Some values))
  /\ submit_entry_handler
       (with_database (Sample.healthy None)
          (Mysql2.execute (fun sql _ => if String.eqb sql query
                                        then DbOk {| insertId := 7 |}
                                        else DbErr (new_Error "unknown statement"))))
       Sample.illustrated_entry
     = submit_entry_handler (Sample.healthy None) Sample.illustrated_entry.
Proof.
  assert (Hsame : forall values,
     Mysql2.execute (fun sql _ => if String.eqb sql query
                                  then DbOk {| insertId := 7 |}
                                  else DbErr (new_Error "unknown statement"))
       query (Some values)
     = db_execute (Sample.healthy None) query (Some values)).
  { intros values. unfold Sample.healthy, Mysql2.execute, Sample.accepting_server.
    cbn [db_execute]. rewrite String.eqb_refl. reflexivity. }
  split; [exact Hsame|].
  exact (only_the_insert_counts (Sample.healthy None) _ Sample.illustrated_entry Hsame).
Defined.

(** ** The uploads of a batch *)

Lemma started_sends (w : World) (fs : list File) :
  List.map fst (start_uploads w fs) = imap (send_of w) fs.
Proof.
  unfold start_uploads. change (List.map fst ?l) with (fst <$> l).
  rewrite fmap_imap. apply imap_ext. reflexivity.
Qed.

Lemma started_indices (w : World) (fs : list File) :
  pend_index <$> List.map snd (start_uploads w fs) = seq 0 (length fs).
Proof.
  unfold start_uploads. change (List.map snd ?l) with (snd <$> l).
  rewrite !fmap_imap.
  rewrite (imap_ext _ (fun j _ => j)) by reflexivity.
  rewrite (imap_seq_0 fs (fun j => j)). apply list_fmap_id.
Qed.

Lemma settled_events_only (w : World) (fs : list File) (order : list Pending) tr r :
  watch order = (tr, r) ->
  exists seen, seen `prefix_of` order /\
    settled (List.map fst (start_uploads w fs) ++ tr) = pend_index <$> seen.
Proof.
  intros Hw.
  assert (Hsends : settled (List.map fst (start_uploads w fs)) = []).
  { pose proof (sends_are_sends w fs) as Hall.
    induction (List.map fst (start_uploads w fs)) as [|ev l IH]; [reflexivity|].
    destruct (Hall ev (list_elem_of_here _ _)) as (i & params & ->).
    unfold settled in *. simpl. apply IH.
    intros ev' Hin. apply Hall. now right. }
  unfold settled in *. rewrite omap_app, Hsends. simpl.
  clear Hsends. revert tr Hw. induction order as [|p later IH]; intros tr; simpl.
  - intros [= <- <-]. exists []. split; [apply prefix_nil | reflexivity].
  - destruct (pend_outcome p) as [e|url].
    + intros [= <- <-]. exists [p]. split; [now exists later | reflexivity].
    + destruct (watch later) as [tr' r'] eqn:Hl. intros [= <- <-].
      destruct (IH tr' eq_refl) as (seen & Hpre & Heq).
      exists (p :: seen). split; [now apply prefix_cons|].
      change (pend_index <$> p :: seen) with (pend_index p :: (pend_index <$> seen)).
      rewrite <- Heq. reflexivity.
Qed.

(** X7: however a batch ends, no file is reported settled twice, and every
    settlement is that of a file of the request. *)
Theorem settlements_distinct (w : World) (req : Request) tr r :
  resolve_attachments w req = (tr, r) ->
  NoDup (settled tr) /\ forall i, i ∈ settled tr -> i < attachments req.
Proof.
  intros Hres. destruct (attachments req) as [|n] eqn:Hn.
  - rewrite (resolve_no_attachments w req Hn) in Hres. injection Hres as <- <-.
    split; [constructor | intros i Hi; inversion Hi].
  - unfold attachments in Hn. destruct (files req) as [fs|] eqn:Hf; [|discriminate].
    rewrite (resolve_with_attachments w req fs Hf) in Hres by lia.
    destruct (watch _) as [trw rw] eqn:Hw.
    assert (Htr : tr = List.map fst (start_uploads w fs) ++ trw)
      by (destruct rw; now injection Hres as <- _).
    subst tr. destruct (settled_events_only w fs _ trw rw Hw) as (seen & Hpre & ->).
    assert (Hall : NoDup (pend_index <$> settle_order (List.map snd (start_uploads w fs)))).
    { rewrite settle_order_perm, started_indices. apply NoDup_seq. }
    destruct Hpre as [rest Hrest]. rewrite Hrest, fmap_app in Hall.
    apply NoDup_app in Hall as (Hseen & _ & _). split; [exact Hseen|].
    intros i Hi.
    assert (Hin : i ∈ pend_index <$> settle_order (List.map snd (start_uploads w fs)))
      by (rewrite Hrest, fmap_app; apply elem_of_app; now left).
    rewrite settle_order_perm, started_indices in Hin.
    apply elem_of_seq in Hin. lia.
Qed.

Lemma settlements_distinct_witness :
  resolve_attachments (Sample.healthy None) Sample.illustrated_entry
    = (fst (resolve_attachments (Sample.healthy None) Sample.illustrated_entry),
       snd (resolve_attachments (Sample.healthy None) Sample.illustrated_entry))
  /\ settled (fst (resolve_attachments (Sample.healthy None) Sample.illustrated_entry))
       = [1; 0]
  /\ NoDup (settled (fst (resolve_attachments (Sample.healthy None)
                            Sample.illustrated_entry))).
Proof.
  split; [reflexivity|]. split; [vm_compute; reflexivity|].
  exact (proj1 (settlements_distinct (Sample.healthy None) Sample.illustrated_entry
                  _ _ eq_refl)).
Defined.

(** X8: every file of an accepted request is sent to the store, in the
    order of [req.files] and before anything else happens; no send waits
    for another to succeed, and nothing is sent later in the run. *)
Theorem sends_come_first (w : World) (req : Request)
    (b : gmap string JsValue) (fs : list File) :
  body req = Some b -> size b <> 0 -> missing_required_fields b = false ->
  files req = Some fs ->
  exists rest,
    fst (submit_entry_handler w req) = imap (send_of w) fs ++ rest
    /\ forall i params, EvS3Send i params ∉ rest.
Proof.
  intros Hb Hnz Hacc Hf.
  assert (Hup : exists trw r,
            resolve_attachments w req = (imap (send_of w) fs ++ trw, r)
            /\ forall i params, EvS3Send i params ∉ trw).
  { destruct fs as [|file fs'] eqn:Hfs.
    - exists [], (inr JNull). split; [|intros i params Hin; inversion Hin].
      apply resolve_no_attachments. unfold attachments. now rewrite Hf.
    - rewrite <- Hfs in *. assert (Hlen : 0 < length fs) by (rewrite Hfs; simpl; lia).
      rewrite (resolve_with_attachments w req fs Hf Hlen), started_sends.
      destruct (watch _) as [trw rw] eqn:Hw.
      exists trw. destruct rw as [err|]; eexists; (split; [reflexivity|]);
        intros i params Hin;
        destruct (watch_events _ _ _ _ Hw Hin) as (p & _ & [=]). }
  destruct Hup as (trw & r & Hup & Hno).
  unfold submit_entry_handler, submit_entry. rewrite Hb.
  destruct (Nat.eqb_spec (size b) 0) as [|_]; [contradiction|].
  rewrite Hacc, Hup. destruct r as [err|vl].
  - exists trw. split; [reflexivity | exact Hno].
  - unfold Run.bind. rewrite insert_entry_run.
    destruct (db_execute w query _) as [result|err]; simpl fst; rewrite <- app_assoc;
      eexists; (split; [reflexivity|]); intros i params Hin;
      apply elem_of_app in Hin as [Hin|Hin]; try exact (Hno i params Hin).
    + apply list_elem_of_singleton in Hin. discriminate.
    + apply elem_of_cons in Hin as [[=]|Hin]. unfold column_check in Hin.
      destruct (visual_links_column_issue err);
        [apply list_elem_of_singleton in Hin; discriminate | inversion Hin].
Qed.

Lemma sends_come_first_witness :
  body Sample.illustrated_entry = Some Sample.jane_form
  /\ size Sample.jane_form <> 0
  /\ missing_required_fields Sample.jane_form = false
  /\ files Sample.illustrated_entry = Some [Sample.png; Sample.pdf]
  /\ exists rest,
       fst (submit_entry_handler (Sample.store_refuses None 0 "SlowDown")
              Sample.illustrated_entry)
         = imap (send_of (Sample.store_refuses None 0 "SlowDown"))
             [Sample.png; Sample.pdf] ++ rest
       /\ forall i params, EvS3Send i params ∉ rest.
Proof.
  assert (Hsize : size Sample.jane_form <> 0) by (vm_compute; discriminate).
  split; [reflexivity|]. split; [exact Hsize|]. split; [reflexivity|].
  split; [reflexivity|].
  exact (sends_come_first (Sample.store_refuses None 0 "SlowDown")
           Sample.illustrated_entry Sample.jane_form [Sample.png; Sample.pdf]
           eq_refl Hsize eq_refl eq_refl).
Defined.

Lemma settles_no_later_transitive : Transitive settles_no_later.
Proof. unfold settles_no_later. intros p q r. lia. Qed.

Lemma settles_no_later_total : Total settles_no_later.
Proof. unfold settles_no_later. intros p q. lia. Qed.

Lemma settle_order_sorted (ps : list Pending) :
  StronglySorted settles_no_later (settle_order ps).
Proof.
  unfold settle_order.
  apply (@StronglySorted_merge_sort _ settles_no_later _
           settles_no_later_transitive settles_no_later_total).
Qed.

(** X9: when a batch fails, the error thrown is that of a send the store
    refused, and no refused send of the batch settled before it: the
    client is told about the earliest failure. *)
Theorem earliest_failure_reported (w : World) (req : Request) tr err :
  resolve_attachments w req = (tr, inl err) ->
  exists fs j file,
    files req = Some fs /\ fs !! j = Some file
    /\ s3_send w j (put_params w file (file_key w j file)) = Some err
    /\ forall k file' err',
         fs !! k = Some file' ->
         s3_send w k (put_params w file' (file_key w k file')) = Some err' ->
         s3_settle_time w j <= s3_settle_time w k.
Proof.
  intros Hres. destruct (attachments req) as [|n] eqn:Hn.
  { rewrite (resolve_no_attachments w req Hn) in Hres. discriminate. }
  unfold attachments in Hn. destruct (files req) as [fs|] eqn:Hf; [|discriminate].
  rewrite (resolve_with_attachments w req fs Hf) in Hres by lia.
  destruct (watch _) as [trw [e|]] eqn:Hw; [|discriminate].
  injection Hres as <- <-.
  destruct (watch_rejected _ _ _ Hw) as (before & p & later & Horder & Hbefore & Hp & _).
  assert (Hin : p ∈ List.map snd (start_uploads w fs)).
  { rewrite <- settle_order_perm, Horder. apply elem_of_app. right. left. }
  destruct (started_promise w fs p Hin) as (file & Hfile & Heq).
  exists fs, (pend_index p), file. split; [reflexivity|]. split; [exact Hfile|].
  split.
  { rewrite Heq in Hp. unfold uploadToS3 in Hp. simpl in Hp.
    destruct (s3_send w _ _); [now injection Hp as -> | discriminate]. }
  intros k file' err' Hk Hrefused.
  pose proof (promise_of_file w fs k file' Hk) as Hq.
  set (q := snd (uploadToS3 w k file' (file_key w k file'))) in *.
  assert (Hqfail : fulfilled q = None).
  { unfold q, fulfilled, uploadToS3. simpl. now rewrite Hrefused. }
  rewrite <- settle_order_perm, Horder in Hq.
  pose proof (settle_order_sorted (List.map snd (start_uploads w fs))) as Hsorted.
  rewrite Horder in Hsorted.
  assert (Htime : pend_time p <= pend_time q).
  { apply elem_of_app in Hq as [Hq|Hq].
    - rewrite Forall_forall in Hbefore. specialize (Hbefore q Hq).
      rewrite Hqfail in Hbefore. now destruct Hbefore.
    - apply elem_of_cons in Hq as [-> | Hq]; [lia|].
      apply StronglySorted_app_1_r in Hsorted.
      apply StronglySorted_cons in Hsorted as [Hafter _].
      rewrite Forall_forall in Hafter. exact (Hafter q Hq). }
  rewrite Heq in Htime. exact Htime.
Qed.

Lemma earliest_failure_reported_witness :
  resolve_attachments all_refused Sample.illustrated_entry
    = (fst (resolve_attachments all_refused Sample.illustrated_entry),
       inl (new_Error "second"))
  /\ exists fs j file,
       files Sample.illustrated_entry = Some fs /\ fs !! j = Some file
       /\ s3_send all_refused j
            (put_params all_refused file (file_key all_refused j file))
            = Some (new_Error "second")
       /\ s3_settle_time all_refused j <= s3_settle_time all_refused 0.
Proof.
  assert (Hrun : resolve_attachments all_refused Sample.illustrated_entry
            = (fst (resolve_attachments all_refused Sample.illustrated_entry),
               inl (new_Error "second"))) by (vm_compute; reflexivity).
  split; [exact Hrun|].
  destruct (earliest_failure_reported _ _ _ _ Hrun)
    as (fs & j & file & Hf & Hj & Hsend & Hleast).
  exists fs, j, file. split; [exact Hf|]. split; [exact Hj|]. split; [exact Hsend|].
  injection Hf as <-.
  exact (Hleast 0 Sample.png (new_Error "first") eq_refl eq_refl).
Defined.

(** When the store keeps every file, the batch ends well. *)
Lemma stored_batch_resolves (w : World) (req : Request) :
  (forall fs i file, files req = Some fs -> fs !! i = Some file ->
     s3_send w i (put_params w file (file_key w i file)) = None) ->
  exists tr visual_links,
    resolve_attachments w req = (tr, inr visual_links)
    /\ visual_links =
         match files req with
         | Some (file :: fs) =>
             JStr (String.concat "," (reference_urls w (file :: fs)))
         | _ => JNull
         end.
Proof.
  intros Hstored.
  destruct (resolve_attachments w req) as [tr [err|vl]] eqn:Hres.
  - exfalso. destruct (resolve_rejected w req tr err Hres) as [[j Hj] _].
    destruct (resolve_events w req tr _ _ Hres Hj)
      as [(? & ? & [=]) | (fs & j' & file & Hf & Hfile & [= <- Hrefused])].
    rewrite (Hstored fs j file Hf Hfile) in Hrefused. discriminate.
  - exists tr, vl. split; [reflexivity|].
    destruct (resolve_fulfilled w req tr vl Hres)
      as [(Hn & _ & ->) | (fs & Hf & Hlen & -> & _)].
    + unfold attachments in Hn. destruct (files req) as [[|file fs]|]; [reflexivity | discriminate | reflexivity].
    + rewrite Hf. destruct fs; [simpl in Hlen; lia | reflexivity].
Qed.

(** X10: when the store keeps every file of the request, the order in which
    the uploads finish has no influence on what is written or answered:
    the insert issued and the answer are the same for any settle times. *)
Theorem settle_times_irrelevant_when_stored (w : World) (time : nat -> nat)
    (req : Request) :
  (forall fs i file, files req = Some fs -> fs !! i = Some file ->
     s3_send w i (put_params w file (file_key w i file)) = None) ->
  snd (submit_entry_handler (with_settle_time w time) req)
    = snd (submit_entry_handler w req)
  /\ inserts (fst (submit_entry_handler (with_settle_time w time) req))
       = inserts (fst (submit_entry_handler w req)).
Proof.
  intros Hstored.
  destruct (stored_batch_resolves w req Hstored) as (tr & vl & Hup & Hvl).
  destruct (stored_batch_resolves (with_settle_time w time) req Hstored)
    as (tr' & vl' & Hup' & Hvl').
  assert (vl' = vl) as -> by (rewrite Hvl, Hvl'; reflexivity).
  destruct (resolve_only_uploads w req tr _ Hup) as [Hins _].
  destruct (resolve_only_uploads _ req tr' _ Hup') as [Hins' _].
  unfold submit_entry_handler, submit_entry.
  destruct (body req) as [b|]; [|split; reflexivity].
  destruct (size b =? 0)%nat; [split; reflexivity|].
  destruct (missing_required_fields b); [split; reflexivity|].
  rewrite Hup, Hup'. unfold Run.bind. rewrite !insert_entry_run.
  change (db_execute (with_settle_time w time)) with (db_execute w).
  destruct (db_execute w query _) as [result|err]; simpl fst; simpl snd.
  - split; [reflexivity|]. now rewrite !inserts_saved.
  - split; [reflexivity|]. now rewrite !inserts_not_saved.
Qed.

Lemma settle_times_irrelevant_when_stored_witness :
  (forall fs i file, files Sample.illustrated_entry = Some fs -> fs !! i = Some file ->
     s3_send (Sample.healthy None) i
       (put_params (Sample.healthy None) file (file_key (Sample.healthy None) i file))
     = None)
  /\ snd (submit_entry_handler (with_settle_time (Sample.healthy None) (fun i => i))
            Sample.illustrated_entry)
     = snd (submit_entry_handler (Sample.healthy None) Sample.illustrated_entry).
Proof.
  assert (Hstored : forall fs i file,
            files Sample.illustrated_entry = Some fs -> fs !! i = Some file ->
            s3_send (Sample.healthy None) i
              (put_params (Sample.healthy None) file
                 (file_key (Sample.healthy None) i file)) = None)
    by reflexivity.
  split; [exact Hstored|].
  exact (proj1 (settle_times_irrelevant_when_stored (Sample.healthy None)
                  (fun i => i) Sample.illustrated_entry Hstored)).
Defined.

(** X11: the value the uploader hands on is [null] exactly when the request
    has no attachment; otherwise it is a string that begins with
    "https://", hence never empty. *)
Theorem visual_links_null_or_url (w : World) (req : Request) tr visual_links :
  resolve_attachments w req = (tr, inr visual_links) ->
  (visual_links = JNull <-> attachments req = 0)
  /\ (attachments req <> 0 ->
        exists rest, visual_links = JStr ("https://" +:+ rest)).
Proof.
  intros Hres.
  destruct (resolve_fulfilled w req tr visual_links Hres)
    as [(Hn & _ & ->) | (fs & Hf & Hlen & -> & _)].
  - split; [tauto | contradiction].
  - assert (Hn : attachments req <> 0) by (unfold attachments; rewrite Hf; lia).
    split; [split; [discriminate | contradiction]|].
    intros _. destruct fs as [|file fs]; [simpl in Hlen; lia|].
    unfold reference_urls. rewrite imap_cons. unfold s3_url at 1.
    destruct (imap _ fs) as [|url urls]; simpl; eauto.
Qed.

Lemma visual_links_null_or_url_witness :
  resolve_attachments (Sample.healthy None) Sample.plain_entry = ([], inr JNull)
  /\ (JNull = JNull <-> attachments Sample.plain_entry = 0).
Proof.
  split; [reflexivity|].
  exact (proj1 (visual_links_null_or_url (Sample.healthy None) Sample.plain_entry
                  [] JNull eq_refl)).
Defined.

(** ** Keys and URLs *)

Lemma no_dash_cons (c : ascii) (s : string) :
  no_dash (String c s) <-> c <> "-"%char /\ no_dash s.
Proof.
  unfold no_dash. simpl. split.
  - intros Hall. inversion Hall; subst. now split.
  - intros [Hc Hs]. now constructor.
Qed.

Lemma pretty_N_char_no_dash (x : N) : pretty_N_char x <> "-"%char.
Proof. unfold pretty_N_char. repeat case_match; discriminate. Qed.

Lemma pretty_N_go_no_dash (x : N) (s : string) :
  no_dash s -> no_dash (pretty_N_go x s).
Proof.
  revert s. induction (N.lt_wf_0 x) as [x _ IH]. intros s Hs.
  destruct (decide (0 < x)%N) as [Hpos|Hzero].
  - rewrite pretty_N_go_step by exact Hpos. apply IH.
    + apply N.div_lt; lia.
    + apply no_dash_cons. split; [apply pretty_N_char_no_dash | exact Hs].
  - assert (x = 0%N) as -> by lia. now rewrite pretty_N_go_0.
Qed.

Lemma pretty_Z_no_dash (z : Z) : (0 <= z)%Z -> no_dash (pretty z).
Proof.
  intros Hz. destruct z as [|p|p]; [| |lia].
  - apply no_dash_cons. split; [discriminate | constructor].
  - unfold pretty, pretty_Z, pretty, pretty_positive, pretty, pretty_N.
    destruct (decide (N.pos p = 0%N)); [discriminate|].
    apply pretty_N_go_no_dash. constructor.
Qed.

Lemma split_at_dash (a a' r r' : string) :
  no_dash a -> no_dash a' ->
  a +:+ String "-" r = a' +:+ String "-" r' -> a = a' /\ r = r'.
Proof.
  revert a'. induction a as [|c a IH]; intros [|c' a'] Ha Ha' Heq;
    cbv [String.append] in Heq; fold String.append in Heq.
  - injection Heq as ->. now split.
  - injection Heq as <- _. apply no_dash_cons in Ha' as [Hc _]. contradiction.
  - injection Heq as -> _. apply no_dash_cons in Ha as [Hc _]. contradiction.
  - injection Heq as -> Heq.
    apply no_dash_cons in Ha as [_ Ha]. apply no_dash_cons in Ha' as [_ Ha'].
    destruct (IH a' Ha Ha' Heq) as [-> ->]. now split.
Qed.

(** X12: the reference URL of an attachment tells its parts apart: with
    timestamps that are not negative and random ids without a hyphen, two
    attachments of a world have the same URL (or the same key) only if the
    timestamp, the random id and the original file name all coincide. *)
Theorem url_determines_key_parts (w : World) (i j : nat) (f g : File) :
  (0 <= date_now w i)%Z -> (0 <= date_now w j)%Z ->
  no_dash (random_id w i) -> no_dash (random_id w j) ->
  s3_url w (file_key w i f) = s3_url w (file_key w j g) ->
  file_key w i f = file_key w j g
  /\ date_now w i = date_now w j
  /\ random_id w i = random_id w j
  /\ originalname f = originalname g.
Proof.
  intros Hi Hj Hri Hrj Hurl.
  unfold s3_url in Hurl.
  do 5 apply String.app_inj in Hurl.
  split; [exact Hurl|].
  unfold file_key in Hurl. apply String.app_inj in Hurl.
  apply split_at_dash in Hurl as [Hts Hrest];
    [|now apply pretty_Z_no_dash|now apply pretty_Z_no_dash].
  apply (inj pretty) in Hts.
  apply split_at_dash in Hrest as [Hrnd Hname]; [|assumption|assumption].
  now repeat split.
Qed.

Lemma url_determines_key_parts_witness :
  (0 <= date_now (Sample.healthy None) 0)%Z
  /\ (0 <= date_now (Sample.healthy None) 1)%Z
  /\ no_dash (random_id (Sample.healthy None) 0)
  /\ no_dash (random_id (Sample.healthy None) 1)
  /\ s3_url (Sample.healthy None) (file_key (Sample.healthy None) 0 Sample.png)
       <> s3_url (Sample.healthy None) (file_key (Sample.healthy None) 1 Sample.png).
Proof.
  assert (H0 : (0 <= date_now (Sample.healthy None) 0)%Z) by (vm_compute; discriminate).
  assert (H1 : (0 <= date_now (Sample.healthy None) 1)%Z) by (vm_compute; discriminate).
  assert (R0 : no_dash (random_id (Sample.healthy None) 0))
    by (vm_compute; repeat constructor; discriminate).
  assert (R1 : no_dash (random_id (Sample.healthy None) 1))
    by (vm_compute; repeat constructor; discriminate).
  split; [exact H0|]. split; [exact H1|]. split; [exact R0|]. split; [exact R1|].
  intros Hurl.
  destruct (url_determines_key_parts (Sample.healthy None) 0 1 Sample.png Sample.png
              H0 H1 R0 R1 Hurl) as (_ & Hts & _).
  vm_compute in Hts. discriminate.
Defined.

(** X13: the region in a returned URL is that of the S3 client exactly when
    AWS_REGION is set: without it the client is created for ap-south-1
    while the URL names us-east-1. *)
Theorem url_region_matches_client_iff_set (w : World) (key : string) :
  (env_missing (env w) "AWS_REGION" = false ->
     s3_url w key =
       "https://" +:+ template_of (S3_BUCKET_NAME w) +:+ ".s3."
         +:+ Startup.cfg_s3_region (Startup.read_config (env w))
         +:+ ".amazonaws.com/" +:+ key)
  /\ (env_missing (env w) "AWS_REGION" = true ->
        Startup.cfg_s3_region (Startup.read_config (env w)) = "ap-south-1"
        /\ s3_url w key =
             "https://" +:+ template_of (S3_BUCKET_NAME w)
               +:+ ".s3.us-east-1.amazonaws.com/" +:+ key
        /\ s3_url w key <>
             "https://" +:+ template_of (S3_BUCKET_NAME w) +:+ ".s3."
               +:+ Startup.cfg_s3_region (Startup.read_config (env w))
               +:+ ".amazonaws.com/" +:+ key).
Proof.
  unfold s3_url, Startup.read_config, Startup.cfg_s3_region, env_or, env_missing.
  destruct (process_env (env w) "AWS_REGION") as [region|].
  - split.
    + intros Hset. now rewrite Hset.
    + intros Hempty. rewrite Hempty. split; [reflexivity|]. split; [reflexivity|].
      intros Heq. do 2 apply String.app_inj in Heq. discriminate.
  - split; [discriminate|]. intros _. split; [reflexivity|]. split; [reflexivity|].
    intros Heq. do 2 apply String.app_inj in Heq. discriminate.
Qed.

(** ** More on start-up *)

Lemma required_set (env : gmap string string) (v : string) :
  Startup.missingVars env = [] -> In v Startup.requiredEnvVars ->
  exists s, process_env env v = Some s /\ s <> EmptyString
            /\ env_or env v EmptyString = s.
Proof.
  intros Hnone Hv.
  assert (Hset : env_missing env v = false).
  { destruct (env_missing env v) eqn:Hm; [|reflexivity].
    assert (Hin : In v (Startup.missingVars env)) by (apply missingVars_spec; now split).
    rewrite Hnone in Hin. destruct Hin. }
  unfold env_missing, env_or in *. destruct (process_env env v) as [s|]; [|discriminate].
  exists s. rewrite Hset. repeat split. now destruct s.
Qed.

(** X14: a server that listens was configured from the environment alone:
    the database host, user, password and schema are the non-empty values
    of DB_HOST, DB_USER, DB_PASS and DB_NAME, so that the fallbacks written
    next to them ("localhost", "root", the empty password, "cca_responses")
    are never used, and the bucket and the two storage keys are set. *)
Theorem listening_config_from_environment (env : gmap string string)
    (cfg : Startup.Config) :
  Startup.startup env = Startup.Listening cfg ->
  (process_env env "DB_HOST" = Some (Startup.cfg_db_host cfg)
   /\ Startup.cfg_db_host cfg <> EmptyString)
  /\ (process_env env "DB_USER" = Some (Startup.cfg_db_user cfg)
      /\ Startup.cfg_db_user cfg <> EmptyString)
  /\ (process_env env "DB_PASS" = Some (Startup.cfg_db_password cfg)
      /\ Startup.cfg_db_password cfg <> EmptyString)
  /\ (process_env env "DB_NAME" = Some (Startup.cfg_db_database cfg)
      /\ Startup.cfg_db_database cfg <> EmptyString)
  /\ (exists bucket key secret,
        Startup.cfg_bucket cfg = Some bucket /\ bucket <> EmptyString
        /\ Startup.cfg_s3_accessKeyId cfg = Some key /\ key <> EmptyString
        /\ Startup.cfg_s3_secretAccessKey cfg = Some secret
        /\ secret <> EmptyString).
Proof.
  unfold Startup.startup. destruct (Startup.missingVars env) as [|v rest] eqn:Hnone;
    [|discriminate].
  intros [= <-]. unfold Startup.read_config. simpl.
  assert (Hreq : forall v, In v Startup.requiredEnvVars ->
            exists s, process_env env v = Some s /\ s <> EmptyString
                      /\ env_or env v EmptyString = s)
    by (intros v Hv; now apply required_set).
  assert (Hor : forall v d, In v Startup.requiredEnvVars ->
            process_env env v = Some (env_or env v d) /\ env_or env v d <> EmptyString).
  { intros v d Hv. destruct (Hreq v Hv) as (s & Hs & Hne & _).
    unfold env_or. rewrite Hs. destruct s; [contradiction|]. now split. }
  split; [apply Hor; simpl; tauto|]. split; [apply Hor; simpl; tauto|].
  split; [apply Hor; simpl; tauto|]. split; [apply Hor; simpl; tauto|].
  destruct (Hreq "S3_BUCKET_NAME") as (bucket & Hb & Hbne & _); [simpl; tauto|].
  destruct (Hreq "AWS_ACCESS_KEY_ID") as (key & Hk & Hkne & _); [simpl; tauto|].
  destruct (Hreq "AWS_SECRET_ACCESS_KEY") as (secret & Hs & Hsne & _); [simpl; tauto|].
  exists bucket, key, secret. now repeat split.
Qed.

Lemma listening_config_from_environment_witness :
  Startup.startup Sample.required_env
    = Startup.Listening (Startup.read_config Sample.required_env)
  /\ Startup.cfg_db_password (Startup.read_config Sample.required_env) <> EmptyString.
Proof.
  assert (Hrun : Startup.startup Sample.required_env
            = Startup.Listening (Startup.read_config Sample.required_env))
    by (vm_compute; reflexivity).
  split; [exact Hrun|].
  exact (proj2 (proj1 (proj2 (proj2
           (listening_config_from_environment Sample.required_env _ Hrun))))).
Defined.

Lemma filter_sublist {A} (f : A -> bool) (l : list A) :
  List.filter f l `sublist_of` l.
Proof.
  induction l as [|x l IH]; simpl; [constructor|].
  destruct (f x); [now apply sublist_skip | now apply sublist_cons].
Qed.

(** X15: the diagnostic names each missing setting once and in the order
    of [requiredEnvVars], between one heading and three closing lines. *)
Theorem diagnostics_in_order (env : gmap string string) :
  Startup.missingVars env `sublist_of` Startup.requiredEnvVars
  /\ NoDup (Startup.missingVars env)
  /\ exists heading closing,
       Startup.diagnostics (Startup.missingVars env)
         = heading :: List.map Startup.missing_line (Startup.missingVars env)
             ++ closing
       /\ length closing = 3
       /\ (forall v, heading <> Startup.missing_line v)
       /\ (forall v, ~ In (Startup.missing_line v) closing).
Proof.
  assert (Hsub : Startup.missingVars env `sublist_of` Startup.requiredEnvVars)
    by apply filter_sublist.
  split; [exact Hsub|]. split.
  - apply (sublist_NoDup _ Startup.requiredEnvVars); [|exact Hsub].
    apply (bool_decide_unpack _). vm_compute. exact I.
  - eexists _, _. split; [reflexivity|]. split; [reflexivity|]. split.
    + intros v. discriminate.
    + intros v Hin. simpl in Hin. destruct Hin as [Hin|[Hin|[Hin|[]]]]; discriminate.
Qed.

(** ** The connection test *)

Lemma retries_until_connected (get_connection : nat -> option JsError)
    (k a fuel : nat) :
  (forall j, a <= j < a + k -> get_connection j <> None) ->
  get_connection (a + k) = None -> k < fuel ->
  testDatabaseConnection get_connection fuel a =
    (flat_map failed_attempt (seq a k)
       ++ [EvGetConnection (a + k); EvRelease (a + k)], true).
Proof.
  revert a fuel. induction k as [|k IH]; intros a fuel Hfail Hok Hfuel;
    (destruct fuel as [|fuel]; [lia|]); simpl.
  - rewrite Nat.add_0_r in *. now rewrite Hok.
  - destruct (get_connection a) as [err|] eqn:Ha.
    2:{ exfalso. apply (Hfail a); [lia | exact Ha]. }
    rewrite (IH (S a) fuel).
    + now rewrite <- Nat.add_succ_comm.
    + intros j Hj. apply Hfail. lia.
    + now rewrite Nat.add_succ_comm.
    + lia.
Qed.

Lemma waited_failed_attempts (a k : nat) (rest : list PoolEvent) :
  waited (flat_map failed_attempt (seq a k) ++ rest)
    = (5000 * Z.of_nat k + waited rest)%Z.
Proof.
  revert a. induction k as [|k IH]; intros a; [reflexivity|].
  change (seq a (S k)) with (a :: seq (S a) k).
  cbn [flat_map failed_attempt app waited fold_right].
  fold (waited (flat_map failed_attempt (seq (S a) k) ++ rest)).
  rewrite IH. lia.
Qed.

(** X16: the connection test at start-up tries again five seconds after
    each failure until a connection is handed out: if the attempt number
    k is the first to succeed, the run is k failed attempts, each followed
    by a five-second timer, then the successful one and the release of its
    connection, which is the only release; 5000 k milliseconds were spent
    waiting. *)
Theorem connection_test_retries_until_connected
    (get_connection : nat -> option JsError) (k fuel : nat) :
  (forall j, j < k -> get_connection j <> None) ->
  get_connection k = None -> k < fuel ->
  testDatabaseConnection get_connection fuel 0 =
    (flat_map failed_attempt (seq 0 k) ++ [EvGetConnection k; EvRelease k], true)
  /\ waited (fst (testDatabaseConnection get_connection fuel 0))
       = (5000 * Z.of_nat k)%Z
  /\ (forall a, EvRelease a ∈ fst (testDatabaseConnection get_connection fuel 0) ->
        a = k).
Proof.
  intros Hfail Hok Hfuel.
  rewrite (retries_until_connected get_connection k 0 fuel);
    [|intros j Hj; apply Hfail; lia|exact Hok|exact Hfuel].
  simpl fst. split; [reflexivity|]. split.
  - rewrite waited_failed_attempts. simpl. lia.
  - intros a Hin. apply elem_of_app in Hin as [Hin|Hin].
    + exfalso. apply list_elem_of_In, in_flat_map in Hin as (j & _ & Hj).
      simpl in Hj. destruct Hj as [[=]|[[=]|[]]].
    + apply elem_of_cons in Hin as [[=]|Hin].
      apply list_elem_of_singleton in Hin. now injection Hin.
Qed.

Lemma connection_test_retries_until_connected_witness :
  (forall j, j < 2 ->
     (fun n => if (n <? 2)%nat then Some (new_Error "ECONNREFUSED") else None) j <> None)
  /\ (fun n => if (n <? 2)%nat then Some (new_Error "ECONNREFUSED") else None) 2 = None
  /\ 2 < 5
  /\ testDatabaseConnection
       (fun n => if (n <? 2)%nat then Some (new_Error "ECONNREFUSED") else None) 5 0
     = ([ EvGetConnection 0; EvSetTimeout 5000; EvGetConnection 1; EvSetTimeout 5000;
          EvGetConnection 2; EvRelease 2 ], true).
Proof.
  assert (Hfail : forall j, j < 2 ->
            (fun n => if (n <? 2)%nat then Some (new_Error "ECONNREFUSED") else None) j
              <> None).
  { intros j Hj. simpl. destruct (Nat.ltb_spec j 2); [discriminate | lia]. }
  split; [exact Hfail|]. split; [reflexivity|]. split; [lia|].
  exact (proj1 (connection_test_retries_until_connected _ 2 5 Hfail eq_refl
                  (le_n_S _ _ (le_S _ _ (le_S _ _ (le_n 2)))))).
Defined.

(** X17: the connection test never gives up: as long as every attempt
    fails it has not come to an end, however many calls are followed; each
    attempt is followed by a five-second timer and nothing is released. *)
Theorem connection_test_never_gives_up
    (get_connection : nat -> option JsError) (fuel : nat) :
  (forall j, j < fuel -> get_connection j <> None) ->
  testDatabaseConnection get_connection fuel 0
    = (flat_map failed_attempt (seq 0 fuel), false)
  /\ forall a, EvRelease a ∉ fst (testDatabaseConnection get_connection fuel 0).
Proof.
  intros Hfail.
  assert (Hrun : forall a, (forall j, a <= j < a + fuel -> get_connection j <> None) ->
            testDatabaseConnection get_connection fuel a
              = (flat_map failed_attempt (seq a fuel), false)).
  { induction fuel as [|fuel IH]; intros a Ha; [reflexivity|]. simpl.
    destruct (get_connection a) as [err|] eqn:Hga.
    2:{ exfalso. apply (Ha a); [lia | exact Hga]. }
    rewrite (IH (fun j Hj => Hfail j (Nat.lt_lt_succ_r _ _ Hj)) (S a)); [reflexivity|].
    intros j Hj. apply Ha. lia. }
  rewrite (Hrun 0) by (intros j Hj; apply Hfail; lia).
  split; [reflexivity|]. intros a Hin. simpl in Hin.
  apply list_elem_of_In, in_flat_map in Hin as (j & _ & Hj).
  simpl in Hj. destruct Hj as [[=]|[[=]|[]]].
Qed.

Lemma connection_test_never_gives_up_witness :
  (forall j, j < 3 -> (fun _ : nat => Some (new_Error "ECONNREFUSED")) j <> None)
  /\ testDatabaseConnection (fun _ => Some (new_Error "ECONNREFUSED")) 3 0
     = ([ EvGetConnection 0; EvSetTimeout 5000; EvGetConnection 1; EvSetTimeout 5000;
          EvGetConnection 2; EvSetTimeout 5000 ], false).
Proof.
  assert (Hfail : forall j, j < 3 ->
            (fun _ : nat => Some (new_Error "ECONNREFUSED")) j <> None)
    by (intros j _; discriminate).
  split; [exact Hfail|].
  exact (proj1 (connection_test_never_gives_up _ 3 Hfail)).
Defined.

(** ** The debug endpoint and the submission *)

Lemma test_form_reports (req : Request) :
  json_field "hasFullName" (test_form_handler req) = Some (JBool (has_full_name req))
  /\ json_field "filesCount" (test_form_handler req) = Some (JNum (files_count req)).
Proof. split; reflexivity. Qed.

(** X18: what [/api/test-form] reports foretells what [/api/submit-entry]
    does with the same request: when [hasFullName] is reported false the
    submission is answered 400 without any call, and when [filesCount] is
    reported 0 the submission uploads nothing. *)
Theorem test_form_foretells_submission (w : World) (req : Request) :
  (json_field "hasFullName" (test_form_route req) = Some (JBool false) ->
     submit_entry_route w req = ([], rejected no_form_data)
     \/ submit_entry_route w req = ([], rejected missing_required))
  /\ (json_field "filesCount" (test_form_route req) = Some (JNum 0) ->
        uploads (fst (submit_entry_route w req)) = []).
Proof.
  unfold test_form_route, submit_entry_route.
  destruct (upload_array req) as [err|req'] eqn:Hfilter.
  { split; discriminate. }
  apply upload_array_passes in Hfilter as ->.
  destruct (test_form_reports req) as [Hhas Hcnt]. rewrite Hhas, Hcnt.
  destruct (submit_entry_handler w req) as [tr response] eqn:Hh. simpl fst.
  split.
  - intros [= Hname].
    destruct (handler_answered w req tr response Hh) as
      [Hz | b Hb _ Hm | b tru err Hb _ Hm Hup | b tru vl result Hb _ Hm Hup Hdb
       | b tru vl err Hb _ Hm Hup Hdb];
      [now left | now right | | | ];
      exfalso; unfold has_full_name in Hname; rewrite Hb in Hname;
      unfold missing_required_fields in Hm; rewrite Hname in Hm; discriminate.
  - intros [= Hcount].
    assert (Hnone : attachments req = 0).
    { unfold files_count, attachments in *. destruct (files req); lia. }
    assert (Hclean : forall tru r, resolve_attachments w req = (tru, r) -> tru = []).
    { intros tru r Hup. rewrite (resolve_no_attachments w req Hnone) in Hup.
      now injection Hup. }
    destruct (handler_answered w req tr response Hh) as
      [Hz | b Hb _ Hm | b tru err Hb _ _ Hup | b tru vl result Hb _ _ Hup Hdb
       | b tru vl err Hb _ _ Hup Hdb]; try reflexivity;
      rewrite (Hclean _ _ Hup); try reflexivity.
    unfold column_check. now destruct (visual_links_column_issue err).
Qed.

(** ** The revision before the checks *)

Lemma previous_insert_entry_run (w : World) b visual_links :
  Previous.insert_entry w b visual_links =
    match db_execute w query (Some (values_of b visual_links)) with
    | DbOk result =>
        ([EvDbExecute query (Some (values_of b visual_links))],
         inr (saved visual_links result))
    | DbErr err =>
        match Previous.visual_links_column_issue err with
        | inl thrown =>
            ([EvDbExecute query (Some (values_of b visual_links))], inl thrown)
        | inr issue =>
            (EvDbExecute query (Some (values_of b visual_links))
               :: (if issue then [EvDbExecute show_columns None] else []),
             inr (res_json 500
                    [ ("message", JStr "Error saving the entry.");
                      ("error", if development w then JStr (message err)
                                else JUndefined) ]))
        end
    end.
Proof.
  unfold Previous.insert_entry, execute, Run.try_catch, Run.bind, Run.ret.
  destruct (db_execute w query _) as [result|err]; [reflexivity|].
  destruct (Previous.visual_links_column_issue err) as [thrown|[|]]; [reflexivity| |reflexivity].
  destruct (db_execute w show_columns None); reflexivity.
Qed.

Lemma column_issue_guarded (err : JsError) :
  match Previous.visual_links_column_issue err with
  | inr issue => visual_links_column_issue err = issue
  | inl _ => visual_links_column_issue err = false
            /\ code err = Some "ER_BAD_FIELD_ERROR" /\ sqlMessage err = None
  end.
Proof.
  unfold Previous.visual_links_column_issue, visual_links_column_issue.
  destruct (code err) as [c|]; [|reflexivity].
  destruct (String.eqb_spec c "ER_BAD_FIELD_ERROR") as [->|_]; [|reflexivity].
  destruct (sqlMessage err) as [m|]; [|now repeat split].
  destruct m; reflexivity.
Qed.

(** X19: the checks added to the handler only turn requests away: for a
    request that passes them (a body with fields, both required fields
    truthy) the revision without checks issues the same calls, and, unless
    the insert fails, gives the same answer. *)
Theorem checks_only_reject (w : World) (req : Request)
    (b : gmap string JsValue) :
  body req = Some b -> size b <> 0 -> missing_required_fields b = false ->
  fst (Previous.submit_entry_handler w req) = fst (submit_entry_handler w req)
  /\ ((forall err, snd (submit_entry_handler w req) <> not_saved w err) ->
        Previous.submit_entry_handler w req = submit_entry_handler w req).
Proof.
  intros Hb Hnz Hacc.
  unfold Previous.submit_entry_handler, Previous.submit_entry,
    submit_entry_handler, submit_entry.
  rewrite Hb. destruct (Nat.eqb_spec (size b) 0) as [|_]; [contradiction|].
  rewrite Hacc. destruct (resolve_attachments w req) as [tr [error|vl]];
    [split; reflexivity|].
  unfold Run.bind. rewrite previous_insert_entry_run, insert_entry_run.
  destruct (db_execute w query _) as [result|err]; [split; reflexivity|].
  pose proof (column_issue_guarded err) as Hissue. unfold column_check.
  destruct (Previous.visual_links_column_issue err) as [thrown|issue].
  - destruct Hissue as [-> _]. simpl. split; [reflexivity|].
    intros Hnot. exfalso. now apply (Hnot err).
  - rewrite Hissue. simpl. split; [reflexivity|].
    intros Hnot. exfalso. now apply (Hnot err).
Qed.

Lemma checks_only_reject_witness :
  body Sample.illustrated_entry = Some Sample.jane_form
  /\ size Sample.jane_form <> 0
  /\ missing_required_fields Sample.jane_form = false
  /\ (forall err,
        snd (submit_entry_handler (Sample.healthy None) Sample.illustrated_entry)
          <> not_saved (Sample.healthy None) err)
  /\ Previous.submit_entry_handler (Sample.healthy None) Sample.illustrated_entry
     = submit_entry_handler (Sample.healthy None) Sample.illustrated_entry.
Proof.
  assert (Hsize : size Sample.jane_form <> 0) by (vm_compute; discriminate).
  assert (Hok : forall err,
            snd (submit_entry_handler (Sample.healthy None) Sample.illustrated_entry)
              <> not_saved (Sample.healthy None) err).
  { intros err Heq. apply (f_equal res_status) in Heq.
    vm_compute in Heq. discriminate. }
  split; [reflexivity|]. split; [exact Hsize|]. split; [reflexivity|].
  split; [exact Hok|].
  exact (proj2 (checks_only_reject (Sample.healthy None) Sample.illustrated_entry
                  Sample.jane_form eq_refl Hsize eq_refl) Hok).
Defined.

(** X20: without the checks a submission with no name was written: if the
    database accepts the statement, the earlier revision inserts the row
    and answers 200 for any body, while the current handler answers such a
    request 400 and calls nothing. *)
Theorem earlier_revision_wrote_nameless_rows (w : World) (req : Request)
    (b : gmap string JsValue) (result : ExecResult) :
  body req = Some b -> attachments req = 0 ->
  db_execute w query (Some (values_of b JNull)) = DbOk result ->
  Previous.submit_entry_handler w req
    = ([EvDbExecute query (Some (values_of b JNull))], saved JNull result)
  /\ (missing_required_fields b = true ->
        fst (submit_entry_handler w req) = []
        /\ res_status (snd (submit_entry_handler w req)) = 400%Z).
Proof.
  intros Hb Hnone Hdb. split.
  - unfold Previous.submit_entry_handler, Previous.submit_entry.
    rewrite Hb, (resolve_no_attachments w req Hnone). unfold Run.bind.
    rewrite previous_insert_entry_run, Hdb. reflexivity.
  - intros Hmiss. unfold submit_entry_handler, submit_entry. rewrite Hb.
    destruct (size b =? 0)%nat; [split; reflexivity|].
    rewrite Hmiss. split; reflexivity.
Qed.

Lemma earlier_revision_wrote_nameless_rows_witness :
  body unnamed_entry = Some unnamed_form
  /\ attachments unnamed_entry = 0
  /\ db_execute (Sample.healthy None) query (Some (values_of unnamed_form JNull))
     = DbOk {| insertId := 7 |}
  /\ missing_required_fields unnamed_form = true
  /\ Previous.submit_entry_handler (Sample.healthy None) unnamed_entry
     = ([EvDbExecute query (Some (values_of unnamed_form JNull))],
        saved JNull {| insertId := 7 |})
  /\ fst (submit_entry_handler (Sample.healthy None) unnamed_entry) = [].
Proof.
  assert (Hdb : db_execute (Sample.healthy None) query
                  (Some (values_of unnamed_form JNull))
                = DbOk {| insertId := 7 |}) by (vm_compute; reflexivity).
  assert (Hmiss : missing_required_fields unnamed_form = true)
    by (vm_compute; reflexivity).
  split; [reflexivity|]. split; [reflexivity|]. split; [exact Hdb|].
  split; [exact Hmiss|].
  destruct (earlier_revision_wrote_nameless_rows (Sample.healthy None) unnamed_entry
              unnamed_form {| insertId := 7 |} eq_refl eq_refl Hdb) as [Hprev Hcur].
  split; [exact Hprev | exact (proj1 (Hcur Hmiss))].
Defined.

(** X21: the guard on [sqlMessage] changed one answer: a failed insert with
    the code ER_BAD_FIELD_ERROR and no SQL message made the earlier
    revision throw inside its [catch], so that it answered "Error
    processing submission." with the text of that exception; the current
    handler answers "Error saving the entry." and asks nothing more of the
    database. *)
Theorem sql_message_guard (w : World) (req : Request)
    (b : gmap string JsValue) tr visual_links err :
  body req = Some b -> size b <> 0 -> missing_required_fields b = false ->
  resolve_attachments w req = (tr, inr visual_links) ->
  db_execute w query (Some (values_of b visual_links)) = DbErr err ->
  code err = Some "ER_BAD_FIELD_ERROR" -> sqlMessage err = None ->
  Previous.submit_entry_handler w req
    = (tr ++ [EvDbExecute query (Some (values_of b visual_links))],
       not_processed Previous.cannot_read_includes)
  /\ submit_entry_handler w req
     = (tr ++ [EvDbExecute query (Some (values_of b visual_links))],
        not_saved w err).
Proof.
  intros Hb Hnz Hacc Hup Hdb Hcode Hmsg.
  unfold Previous.submit_entry_handler, Previous.submit_entry,
    submit_entry_handler, submit_entry.
  rewrite Hb. destruct (Nat.eqb_spec (size b) 0) as [|_]; [contradiction|].
  rewrite Hacc, Hup. unfold Run.bind.
  rewrite previous_insert_entry_run, insert_entry_run, Hdb.
  unfold Previous.visual_links_column_issue, column_check, visual_links_column_issue.
  rewrite Hcode, Hmsg. simpl. split; reflexivity.
Qed.

Lemma sql_message_guard_witness :
  body Sample.plain_entry = Some Sample.jane_form
  /\ size Sample.jane_form <> 0
  /\ missing_required_fields Sample.jane_form = false
  /\ resolve_attachments (Sample.database_fails None bad_field_without_message)
       Sample.plain_entry = ([], inr JNull)
  /\ db_execute (Sample.database_fails None bad_field_without_message)
       query (Some (values_of Sample.jane_form JNull))
     = DbErr bad_field_without_message
  /\ code bad_field_without_message = Some "ER_BAD_FIELD_ERROR"
  /\ sqlMessage bad_field_without_message = None
  /\ Previous.submit_entry_handler
       (Sample.database_fails None bad_field_without_message) Sample.plain_entry
     = ([EvDbExecute query (Some (values_of Sample.jane_form JNull))],
        not_processed Previous.cannot_read_includes).
Proof.
  assert (Hsize : size Sample.jane_form <> 0) by (vm_compute; discriminate).
  assert (Hdb : db_execute (Sample.database_fails None bad_field_without_message)
                  query (Some (values_of Sample.jane_form JNull))
                = DbErr bad_field_without_message) by (vm_compute; reflexivity).
  split; [reflexivity|]. split; [exact Hsize|]. split; [reflexivity|].
  split; [reflexivity|]. split; [exact Hdb|]. split; [reflexivity|].
  split; [reflexivity|].
  exact (proj1 (sql_message_guard (Sample.database_fails None bad_field_without_message)
                  Sample.plain_entry Sample.jane_form [] JNull
                  bad_field_without_message
                  eq_refl Hsize eq_refl eq_refl Hdb eq_refl eq_refl)).
Defined.
